(** * The OAuth2 token-introspection authenticator of oathkeeper

    A shallow embedding of [pipeline/authn/authenticator_oauth2_introspection.go]
    and the properties its specification states about it.

    Conventions of the embedding:
    - a Go [error] result is an [option error] ([None] is [nil]);
      a [(T, error)] result is a [result T];
    - a Go pointer to a struct that may be [nil] is an [option];
    - a Go [map[string]T] is an [option (gmap string T)], [None] being the
      [nil] map;
    - the receiver [a *AuthenticatorOAuth2Introspection] is threaded through
      explicitly: every method returns the authenticator it leaves behind;
    - [errors.WithStack] only attaches a stack trace and is the identity
      here. *)

From Stdlib Require Import ZArith String Ascii Floats List.
From stdpp Require Import gmap strings list fin_maps.
Import ListNotations.
Open Scope string_scope.
Open Scope Z_scope.

(** ** Errors and results *)

(** The error values of [time.ParseDuration]. *)
Inductive time_error : Type :=
| time_invalid_duration (orig : string)
| time_missing_unit (orig : string)
| time_unknown_unit (u orig : string).

(** The error values that travel through the authenticator.  The first five
    are the ones the pipeline knows by name; [Errorf_status] is the
    [errors.Errorf] of the status check; [time_err] wraps what
    [time.ParseDuration] returns; [lib_err] stands for the error values of
    the collaborators (configuration provider, [net/url], [net/http],
    [encoding/json]), told apart by their message only. *)
Inductive error : Type :=
| ErrAuthenticatorNotResponsible
| ErrAuthenticatorNotEnabled (id : string)
| ErrAuthenticatorMisconfigured (id : string) (err : error)
| ErrForbidden (reason : string)
| ErrUnauthorized (reason : string)
| Errorf_status (StatusCode expected : Z)
| time_err (e : time_error)
| lib_err (msg : string).

Inductive result (T : Type) : Type :=
| Ok (v : T)
| Err (e : error).
Arguments Ok {T} v.
Arguments Err {T} e.

(** ** Machine integers *)

(** [uint64] and [int64] arithmetic wraps around. *)
Definition u64 (z : Z) : Z := z mod 2 ^ 64.
Definition i64 (z : Z) : Z := (z + 2 ^ 63) mod 2 ^ 64 - 2 ^ 63.

(** [float64(x)] for a [uint64]: values below [2^63] convert directly,
    larger ones are halved with a sticky low bit and doubled back. *)
Definition float64_of_uint64 (z : Z) : float :=
  if z <? 2 ^ 63 then PrimFloat.of_uint63 (Uint63.of_Z z)
  else PrimFloat.mul
         (PrimFloat.of_uint63 (Uint63.of_Z (Z.lor (Z.shiftr z 1) (Z.land z 1))))
         2%float.

(** [uint64(x)] for a [float64]: truncation towards zero.  Go leaves the
    conversion of negative, infinite and NaN values unspecified; they do not
    occur below and are sent to [0]. *)
Definition uint64_of_float64 (x : float) : Z :=
  match Prim2SF x with
  | S754_finite false m e =>
      if 0 <=? e then u64 (Z.pos m * 2 ^ e) else u64 (Z.pos m / 2 ^ (- e))
  | _ => 0
  end.

(** ** Package [time] *)

Module time.

Definition Duration : Type := Z.

Definition Nanosecond : Duration := 1.
Definition Microsecond : Duration := 1000 * Nanosecond.
Definition Millisecond : Duration := 1000 * Microsecond.
Definition Second : Duration := 1000 * Millisecond.
Definition Minute : Duration := 60 * Second.
Definition Hour : Duration := 60 * Minute.

(** [a * b] on [Duration], an [int64]. *)
Definition mul (a b : Duration) : Duration := i64 (a * b).

Definition byte (c : ascii) : Z := Z.of_N (N_of_ascii c).

Definition is_digit (c : ascii) : bool := (48 <=? byte c) && (byte c <=? 57).

Definition is_dot (c : ascii) : bool := byte c =? 46.

(** The loop of [leadingInt], from the accumulator [x]: the leading
    digits of [s] and the rest, [None] on overflow. *)
Fixpoint leadingInt_from (x : Z) (s : string) : option (Z * string) :=
  match s with
  | String c s' =>
      if is_digit c then
        if x >? 2 ^ 63 / 10 then None
        else
          let x' := u64 (x * 10 + byte c - 48) in
          if x' >? 2 ^ 63 then None else leadingInt_from x' s'
      else Some (x, s)
  | EmptyString => Some (x, s)
  end.

Definition leadingInt (s : string) : option (Z * string) := leadingInt_from 0 s.

(** The loop of [leadingFraction]: digits after the point are accumulated
    until they would overflow, then skipped. *)
Fixpoint leadingFraction_from (x : Z) (scale : float) (overflow : bool)
    (s : string) : Z * float * string :=
  match s with
  | String c s' =>
      if is_digit c then
        if overflow then leadingFraction_from x scale overflow s'
        else if x >? (2 ^ 63 - 1) / 10 then leadingFraction_from x scale true s'
        else
          let y := u64 (x * 10 + byte c - 48) in
          if y >? 2 ^ 63 then leadingFraction_from x scale true s'
          else leadingFraction_from y (PrimFloat.mul scale 10%float) overflow s'
      else (x, scale, s)
  | EmptyString => (x, scale, s)
  end.

Definition leadingFraction (s : string) : Z * float * string :=
  leadingFraction_from 0 1%float false s.

(** The unit of a term: everything up to the next digit or point. *)
Fixpoint span_unit (s : string) : string * string :=
  match s with
  | String c s' =>
      if is_dot c || is_digit c then (EmptyString, s)
      else let '(u, rest) := span_unit s' in (String c u, rest)
  | EmptyString => (EmptyString, EmptyString)
  end.

(** U+00B5 and U+03BC in UTF-8, followed by [s]. *)
Definition micro_s : string :=
  String (ascii_of_nat 194) (String (ascii_of_nat 181) "s").
Definition mu_s : string :=
  String (ascii_of_nat 206) (String (ascii_of_nat 188) "s").

Definition unitMap (u : string) : option Z :=
  if String.eqb u "ns" then Some Nanosecond
  else if String.eqb u "us" then Some Microsecond
  else if String.eqb u micro_s then Some Microsecond
  else if String.eqb u mu_s then Some Microsecond
  else if String.eqb u "ms" then Some Millisecond
  else if String.eqb u "s" then Some Second
  else if String.eqb u "m" then Some Minute
  else if String.eqb u "h" then Some Hour
  else None.

Definition Zlen (s : string) : Z := Z.of_nat (String.length s).

(** One turn of the loop of [ParseDuration]: one term of [s] (digits, an
    optional point and digits, a unit), its value in nanoseconds, and the
    rest of [s]. *)
Definition parse_term (orig s : string) : time_error + (Z * string) :=
  match s with
  | EmptyString => inl (time_invalid_duration orig)
  | String c0 _ =>
      if negb (is_dot c0 || is_digit c0) then inl (time_invalid_duration orig)
      else
        let pl := Zlen s in
        match leadingInt s with
        | None => inl (time_invalid_duration orig)
        | Some (v, s1) =>
            let pre := negb (pl =? Zlen s1) in
            let '(f, scale, s2, post) :=
              match s1 with
              | String c s1' =>
                  if is_dot c then
                    let '(f, scale, s2) := leadingFraction s1' in
                    (f, scale, s2, negb (Zlen s1' =? Zlen s2))
                  else (0, 1%float, s1, false)
              | EmptyString => (0, 1%float, s1, false)
              end in
            if negb pre && negb post then inl (time_invalid_duration orig)
            else
              let '(u, s3) := span_unit s2 in
              if Zlen u =? 0 then inl (time_missing_unit orig)
              else
                match unitMap u with
                | None => inl (time_unknown_unit u orig)
                | Some unit =>
                    if v >? 2 ^ 63 / unit then inl (time_invalid_duration orig)
                    else
                      let v1 := u64 (v * unit) in
                      if f >? 0 then
                        let v2 :=
                          u64 (v1 + uint64_of_float64
                                      (PrimFloat.mul (float64_of_uint64 f)
                                         (PrimFloat.div (float64_of_uint64 unit) scale))) in
                        if v2 >? 2 ^ 63 then inl (time_invalid_duration orig)
                        else inr (v2, s3)
                      else inr (v1, s3)
                end
        end
  end.

(** The loop [for s != ""] of [ParseDuration], [d] being the sum so far.
    Every turn consumes at least one byte ([parse_terms_fuel] below), so
    [fuel] never runs out when it starts at the length of [s]. *)
Fixpoint parse_terms (fuel : nat) (orig s : string) (d : Z) : time_error + Z :=
  match s with
  | EmptyString => inr d
  | String _ _ =>
      match fuel with
      | O => inl (time_invalid_duration orig)
      | S fuel' =>
          match parse_term orig s with
          | inl e => inl e
          | inr (v, rest) =>
              let d' := u64 (d + v) in
              if d' >? 2 ^ 63 then inl (time_invalid_duration orig)
              else parse_terms fuel' orig rest d'
          end
      end
  end.

(** [time.ParseDuration], after the standard library's implementation
    (unsigned accumulation, overflow checked against [1<<63]): an optional
    sign, then either [0] alone or one or more terms. *)
Definition ParseDuration (orig : string) : time_error + Duration :=
  let '(neg, s) :=
    match orig with
    | String c s' =>
        if byte c =? 45 then (true, s')
        else if byte c =? 43 then (false, s')
        else (false, orig)
    | EmptyString => (false, orig)
    end in
  if String.eqb s "0" then inr 0
  else if String.eqb s EmptyString then inl (time_invalid_duration orig)
  else
    match parse_terms (String.length s) orig s 0 with
    | inl e => inl e
    | inr d =>
        if neg then inr (i64 (- i64 d))
        else if d >? 2 ^ 63 - 1 then inl (time_invalid_duration orig)
        else inr (i64 d)
    end.

End time.

(** ** Packages [strings], [stringslice], [net/url] *)

(** [strings.Join(elems, sep)]. *)
Fixpoint strings_Join (elems : list string) (sep : string) : string :=
  match elems with
  | [] => EmptyString
  | [x] => x
  | x :: rest => x +:+ sep +:+ strings_Join rest sep
  end.

(** [strings.Split(s, sep)] for a separator of one byte, the only use the
    authenticator makes of it: [n] separators give [n + 1] pieces. *)
Fixpoint strings_Split (s : string) (sep : ascii) : list string :=
  match s with
  | EmptyString => [EmptyString]
  | String ch s' =>
      if Ascii.eqb ch sep then EmptyString :: strings_Split s' sep
      else
        match strings_Split s' sep with
        | piece :: pieces => String ch piece :: pieces
        | [] => [String ch EmptyString]
        end
  end.

(** [stringslice.Has(items, find)]: exact membership. *)
Definition stringslice_Has (items : list string) (find : string) : bool :=
  existsb (fun item => String.eqb item find) items.

(** [url.Values], a [map[string][]string]. *)
Abbreviation url_Values := (gmap string (list string)).

(** [v.Add(key, value)] appends to the values of [key]. *)
Definition Values_Add (v : url_Values) (key value : string) : url_Values :=
  <[key := (default [] (v !! key) ++ [value])%list]> v.

(** ** Data model *)

(** [json.RawMessage]: the raw bytes of a rule's authenticator
    configuration. *)
Definition RawMessage : Type := string.

(** The dynamic values a [map[string]interface{}] decoded from JSON
    holds. *)
#[local] Unset Elimination Schemes.
Inductive Value : Type :=
| VNil
| VBool (b : bool)
| VNumber (x : float)
| VString (s : string)
| VArray (xs : list Value)
| VObject (fields : list (string * Value)).
#[local] Set Elimination Schemes.

(** [fosite.ScopeStrategy]: does the granted list [haystack] satisfy the
    required scope [needle]. *)
Definition ScopeStrategy : Type := list string -> string -> bool.

Module helper.

(** Modelled from the spec: [helper.BearerTokenLocation] is declared in a
    package that is not among the sources; the spec gives a bearer-token
    location as a header, a query parameter or a cookie. *)
Record BearerTokenLocation : Type := {
  Header : option string;
  QueryParameter : option string;
  Cookie : option string
}.

End helper.

Module PreAuth.

(** [AuthenticatorOAuth2IntrospectionPreAuthConfiguration] *)
Record t : Type := {
  Enabled : bool;
  ClientID : string;
  ClientSecret : string;
  Scope : list string;
  TokenURL : string
}.

End PreAuth.

Module Retry.

(** [AuthenticatorOAuth2IntrospectionRetryConfiguration] *)
Record t : Type := {
  Timeout : string;
  MaxWait : string
}.

End Retry.

Module Configuration.

(** [AuthenticatorOAuth2IntrospectionConfiguration] *)
Record t : Type := {
  Scopes : list string;
  Audience : list string;
  Issuers : list string;
  PreAuth : option PreAuth.t;
  ScopeStrategy : string;
  IntrospectionURL : string;
  BearerTokenLocation : option helper.BearerTokenLocation;
  IntrospectionRequestHeaders : option (gmap string string);
  Retry : option Retry.t
}.

(** [c.Retry = r], the other fields kept. *)
Definition set_Retry (c : t) (r : option Retry.t) : t :=
  {| Scopes := Scopes c; Audience := Audience c; Issuers := Issuers c;
     PreAuth := PreAuth c; ScopeStrategy := ScopeStrategy c;
     IntrospectionURL := IntrospectionURL c;
     BearerTokenLocation := BearerTokenLocation c;
     IntrospectionRequestHeaders := IntrospectionRequestHeaders c;
     Retry := r |}.

End Configuration.

Module Result.

(** [AuthenticatorOAuth2IntrospectionResult] *)
Record t : Type := {
  Active : bool;
  Extra : option (gmap string Value);
  Subject : string;
  Username : string;
  Audience : list string;
  TokenType : string;
  Issuer : string;
  ClientID : string;
  Scope : string
}.

End Result.

Module Session.

(** Modelled from the spec: [AuthenticationSession] is declared in a file
    that is not among the sources; the spec gives it a subject and a
    mapping of extra claims. *)
Record t : Type := {
  Subject : string;
  Extra : option (gmap string Value)
}.

End Session.

Module http.

Definition MethodPost : string := "POST".
Definition StatusOK : Z := 200.

(** [http.Header], a [map[string][]string]. *)
Abbreviation Header := (gmap string (list string)).

(** [http.Request].  The body of the introspection request is a form; it
    is kept as the [url.Values] that [body.Encode()] serialises. *)
Record Request : Type := {
  Method : string;
  URL : string;
  ReqHeader : Header;
  Form : url_Values
}.

(** [http.Response], as far as the authenticator reads it. *)
Record Response : Type := {
  StatusCode : Z;
  Body : string
}.

End http.

(** ** Collaborators *)

Module clientcredentials.

(** [clientcredentials.Config], as far as it is filled in. *)
Record Config : Type := {
  ClientID : string;
  ClientSecret : string;
  Scopes : list string;
  TokenURL : string
}.

End clientcredentials.

(** An [http.RoundTripper]: [nil], or the transport of
    [(&clientcredentials.Config{...}).Client(ctx)], which signs every
    request with a client-credentials token. *)
Inductive RoundTripper : Type :=
| rt_nil
| rt_clientcredentials (cfg : clientcredentials.Config).

(** An [*http.Client], named by the [httpx] constructor that built it and
    the arguments it was given. *)
Inductive Client : Type :=
| NewResilientClientLatencyToleranceSmall (rt : RoundTripper)
| NewResilientClientLatencyToleranceConfigurable
    (rt : RoundTripper) (timeout backOffDontRetryAfter : time.Duration).

Module configuration.

(** The methods of [configuration.Provider] the authenticator calls.
    [AuthenticatorConfig id config] decodes and validates [config] for the
    authenticator [id], giving the struct it fills or its error. *)
Record Provider : Type := {
  AuthenticatorIsEnabled : string -> bool;
  AuthenticatorConfig : string -> RawMessage -> result Configuration.t;
  ToScopeStrategy : string -> string -> option ScopeStrategy
}.

End configuration.

(** What the authenticator reaches outside its own package and the
    provider: the token extractor of package [helper], the URL parser
    behind [http.NewRequest], the header canonicalisation behind
    [Header.Set], the network behind the client's [Do], and the JSON
    decoder. *)
Record Env : Type := {
  BearerTokenFromRequest :
    http.Request -> option helper.BearerTokenLocation -> string;
  url_Parse : string -> option error;
  CanonicalMIMEHeaderKey : string -> string;
  Do : Client -> http.Request -> result http.Response;
  Decode : string -> result Result.t
}.

(** ** The authenticator *)

Module Authenticator.

(** [AuthenticatorOAuth2Introspection] *)
Record t : Type := {
  c : configuration.Provider;
  client : Client
}.

End Authenticator.

Definition NewAuthenticatorOAuth2Introspection (c : configuration.Provider)
  : Authenticator.t :=
  {| Authenticator.c := c;
     Authenticator.client := NewResilientClientLatencyToleranceSmall rt_nil |}.

Definition GetID (a : Authenticator.t) : string := "oauth2_introspection".

Definition NewErrAuthenticatorMisconfigured (a : Authenticator.t) (err : error)
  : error :=
  ErrAuthenticatorMisconfigured (GetID a) err.

Definition NewErrAuthenticatorNotEnabled (a : Authenticator.t) : error :=
  ErrAuthenticatorNotEnabled (GetID a).

(** Lines 176-185 of [Config]: the retry block with its blanks filled. *)
Definition default_Retry (r : option Retry.t) : Retry.t :=
  match r with
  | None => {| Retry.Timeout := "500ms"; Retry.MaxWait := "1s" |}
  | Some r =>
      {| Retry.Timeout :=
           if String.eqb (Retry.Timeout r) EmptyString then "500ms"
           else Retry.Timeout r;
         Retry.MaxWait :=
           if String.eqb (Retry.MaxWait r) EmptyString then "1s"
           else Retry.MaxWait r |}
  end.

(** [Config]: the resolved configuration or the error, and the
    authenticator as the call leaves it. *)
Definition Config (a : Authenticator.t) (config : RawMessage)
  : result Configuration.t * Authenticator.t :=
  match configuration.AuthenticatorConfig (Authenticator.c a) (GetID a) config with
  | Err err => (Err (NewErrAuthenticatorMisconfigured a err), a)
  | Ok c =>
      match Configuration.PreAuth c with
      | Some pre =>
          if PreAuth.Enabled pre then
            let retry := default_Retry (Configuration.Retry c) in
            let c := Configuration.set_Retry c (Some retry) in
            match time.ParseDuration (Retry.Timeout retry) with
            | inl err => (Err (time_err err), a)
            | inr duration =>
                let timeout := time.mul time.Millisecond duration in
                match time.ParseDuration (Retry.MaxWait retry) with
                | inl err => (Err (time_err err), a)
                | inr maxWait =>
                    (Ok c,
                     {| Authenticator.c := Authenticator.c a;
                        Authenticator.client :=
                          NewResilientClientLatencyToleranceConfigurable
                            (rt_clientcredentials
                               {| clientcredentials.ClientID := PreAuth.ClientID pre;
                                  clientcredentials.ClientSecret := PreAuth.ClientSecret pre;
                                  clientcredentials.Scopes := PreAuth.Scope pre;
                                  clientcredentials.TokenURL := PreAuth.TokenURL pre |})
                            timeout maxWait |})
                end
            end
          else (Ok c, a)
      | None => (Ok c, a)
      end
  end.

(** [Validate] *)
Definition Validate (a : Authenticator.t) (config : RawMessage)
  : option error * Authenticator.t :=
  if negb (configuration.AuthenticatorIsEnabled (Authenticator.c a) (GetID a))
  then (Some (NewErrAuthenticatorNotEnabled a), a)
  else
    match Config a config with
    | (Ok _, a') => (None, a')
    | (Err err, a') => (Some err, a')
    end.

(** The double quote of the [\"%s\"] in the token-type message. *)
Definition dquote : string := String (ascii_of_nat 34) EmptyString.

(** Lines 88-93 of [Authenticate]: the form sent to the introspection
    endpoint.  A [nil] scope strategy hands the required scopes to the
    endpoint. *)
Definition introspectionBody (token : string) (ss : option ScopeStrategy)
    (Scopes : list string) : url_Values :=
  let body : url_Values := {[ "token" := [token] ]} in
  match ss with
  | None => Values_Add body "scope" (strings_Join Scopes " ")
  | Some _ => body
  end.

(** [http.NewRequest(method, url, body)] for a valid method: it fails when
    the URL does not parse. *)
Definition NewRequest (E : Env) (method url : string) (body : url_Values)
  : result http.Request :=
  match url_Parse E url with
  | Some err => Err err
  | None =>
      Ok {| http.Method := method; http.URL := url;
            http.ReqHeader := ∅; http.Form := body |}
  end.

(** [req.Header.Set(key, value)] *)
Definition Header_Set (E : Env) (req : http.Request) (key value : string)
  : http.Request :=
  {| http.Method := http.Method req; http.URL := http.URL req;
     http.ReqHeader := <[CanonicalMIMEHeaderKey E key := [value]]> (http.ReqHeader req);
     http.Form := http.Form req |}.

(** Lines 95-103 of [Authenticate]: the introspection request, with the
    configured headers set one by one and the content type set last.  (Go
    ranges over a map in no fixed order; [map_fold] fixes one.) *)
Definition introspectionRequest (E : Env) (cf : Configuration.t)
    (body : url_Values) : result http.Request :=
  match NewRequest E http.MethodPost (Configuration.IntrospectionURL cf) body with
  | Err err => Err err
  | Ok introspectReq =>
      let introspectReq :=
        map_fold (fun key value req => Header_Set E req key value) introspectReq
          (default ∅ (Configuration.IntrospectionRequestHeaders cf)) in
      Ok (Header_Set E introspectReq "Content-Type"
            "application/x-www-form-urlencoded")
  end.

(** Lines 118-144 of [Authenticate]: the checks on the decoded result, in
    order, the first failure returned. *)
Definition checkResult (cf : Configuration.t) (ss : option ScopeStrategy)
    (i : Result.t) : option error :=
  if (0 <? String.length (Result.TokenType i))%nat
     && negb (String.eqb (Result.TokenType i) "access_token")
  then Some (ErrForbidden
               ("Introspected token is not an access token but "
                +:+ dquote +:+ Result.TokenType i +:+ dquote))
  else if negb (Result.Active i)
  then Some (ErrUnauthorized "Access token i says token is not active")
  else
    match find (fun audience => negb (stringslice_Has (Result.Audience i) audience))
               (Configuration.Audience cf) with
    | Some audience =>
        Some (ErrForbidden
                ("Token audience is not intended for target audience " +:+ audience))
    | None =>
        if (0 <? length (Configuration.Issuers cf))%nat
           && negb (stringslice_Has (Configuration.Issuers cf) (Result.Issuer i))
        then Some (ErrForbidden "Token issuer does not match any trusted issuer")
        else
          match ss with
          | Some ss =>
              match find (fun scope =>
                            negb (ss (strings_Split (Result.Scope i) " "%char) scope))
                         (Configuration.Scopes cf) with
              | Some scope =>
                  Some (ErrForbidden ("Scope " +:+ scope +:+ " was not granted"))
              | None => None
              end
          | None => None
          end
    end.

(** [len(m)] of a map that may be [nil]. *)
Definition map_len {V : Type} (m : option (gmap string V)) : nat :=
  match m with
  | None => 0%nat
  | Some m => size m
  end.

(** Lines 146-152 of [Authenticate]: the extra claims handed to the
    session. *)
Definition resultExtra (i : Result.t) : gmap string Value :=
  let Extra : gmap string Value :=
    if (map_len (Result.Extra i) =? 0)%nat then ∅
    else default ∅ (Result.Extra i) in
  let Extra := <["username" := VString (Result.Username i)]> Extra in
  let Extra := <["client_id" := VString (Result.ClientID i)]> Extra in
  <["scope" := VString (Result.Scope i)]> Extra.

(** Lines 154-155 of [Authenticate]. *)
Definition updateSession (session : Session.t) (i : Result.t) : Session.t :=
  {| Session.Subject := Result.Subject i;
     Session.Extra := Some (resultExtra i) |}.

(** [Authenticate]: the error or [nil], the session and the authenticator
    as the call leaves them. *)
Definition Authenticate (E : Env) (a : Authenticator.t) (r : http.Request)
    (session : Session.t) (config : RawMessage)
  : option error * Session.t * Authenticator.t :=
  match Config a config with
  | (Err err, a) => (Some err, session, a)
  | (Ok cf, a) =>
      let token := BearerTokenFromRequest E r (Configuration.BearerTokenLocation cf) in
      if String.eqb token EmptyString
      then (Some ErrAuthenticatorNotResponsible, session, a)
      else
        let ss :=
          configuration.ToScopeStrategy (Authenticator.c a)
            (Configuration.ScopeStrategy cf)
            "authenticators.oauth2_introspection.scope_strategy" in
        let body := introspectionBody token ss (Configuration.Scopes cf) in
        match introspectionRequest E cf body with
        | Err err => (Some err, session, a)
        | Ok introspectReq =>
            match Do E (Authenticator.client a) introspectReq with
            | Err err => (Some err, session, a)
            | Ok resp =>
                if negb (http.StatusCode resp =? http.StatusOK)
                then (Some (Errorf_status (http.StatusCode resp) http.StatusOK),
                      session, a)
                else
                  match Decode E (http.Body resp) with
                  | Err err => (Some err, session, a)
                  | Ok i =>
                      match checkResult cf ss i with
                      | Some err => (Some err, session, a)
                      | None => (None, updateSession session i, a)
                      end
                  end
            end
        end
  end.

(** ** Vocabulary for the statements *)

(** The token [Authenticate] finds in the request [r] (line 83). *)
Definition requestToken (E : Env) (r : http.Request) (cf : Configuration.t)
  : string :=
  BearerTokenFromRequest E r (Configuration.BearerTokenLocation cf).

(** The scope strategy [Authenticate] resolves (line 90); [None] is the
    [nil] strategy of a disabled scope check. *)
Definition scopeStrategy (a : Authenticator.t) (cf : Configuration.t)
  : option ScopeStrategy :=
  configuration.ToScopeStrategy (Authenticator.c a)
    (Configuration.ScopeStrategy cf)
    "authenticators.oauth2_introspection.scope_strategy".

(** A run under the resolved configuration [cf] gets as far as the checks:
    the request carries a token, [introspectReq] is the request sent, and
    the endpoint answers it with status 200 and a body that decodes to
    [i]. *)
Definition introspects (E : Env) (a : Authenticator.t) (r : http.Request)
    (cf : Configuration.t) (introspectReq : http.Request) (i : Result.t)
  : Prop :=
  requestToken E r cf <> EmptyString /\
  introspectionRequest E cf
    (introspectionBody (requestToken E r cf) (scopeStrategy a cf)
       (Configuration.Scopes cf)) = Ok introspectReq /\
  exists resp,
    Do E (Authenticator.client a) introspectReq = Ok resp /\
    http.StatusCode resp = http.StatusOK /\
    Decode E (http.Body resp) = Ok i.

(** The result [i] passes the checks that come before the scopes: token
    type, active flag, target audiences, trusted issuers. *)
Definition admissible (cf : Configuration.t) (i : Result.t) : Prop :=
  (Result.TokenType i = EmptyString \/ Result.TokenType i = "access_token") /\
  Result.Active i = true /\
  (forall audience, In audience (Configuration.Audience cf) ->
                    In audience (Result.Audience i)) /\
  (Configuration.Issuers cf = [] \/
   In (Result.Issuer i) (Configuration.Issuers cf)).

(** The scopes the endpoint reports as granted, as the scope loop splits
    them (line 140). *)
Definition grantedScopes (i : Result.t) : list string :=
  strings_Split (Result.Scope i) " "%char.

(** Is the error the one [NewErrAuthenticatorMisconfigured] builds. *)
Definition isMisconfigured (err : error) : bool :=
  match err with
  | ErrAuthenticatorMisconfigured _ _ => true
  | _ => false
  end.

(** Is the error [helper.ErrUnauthorized] with some reason. *)
Definition isUnauthorized (err : error) : bool :=
  match err with
  | ErrUnauthorized _ => true
  | _ => false
  end.

(** Is the error [helper.ErrForbidden] with some reason. *)
Definition isForbidden (err : error) : bool :=
  match err with
  | ErrForbidden _ => true
  | _ => false
  end.

(** ** The provider's validation, from the specification *)

(** Modelled from the spec: the decode-and-validate call of the
    configuration provider ([driver/configuration] and its schema are not
    among the sources).  The spec has it reject what does not decode, an
    introspection URL that is not a valid absolute URL, and an enabled
    pre-authorization whose token URL, client id or client secret is
    empty.  [decode] and [absolute_url] are the decoder and the URL test it
    relies on. *)
Definition validConfiguration (absolute_url : string -> bool)
    (c : Configuration.t) : bool :=
  absolute_url (Configuration.IntrospectionURL c)
  && match Configuration.PreAuth c with
     | Some pre =>
         if PreAuth.Enabled pre then
           negb (String.eqb (PreAuth.TokenURL pre) EmptyString)
           && negb (String.eqb (PreAuth.ClientID pre) EmptyString)
           && negb (String.eqb (PreAuth.ClientSecret pre) EmptyString)
         else true
     | None => true
     end.

(** Modelled from the spec: a provider whose [AuthenticatorConfig] decodes
    and then validates as [validConfiguration] says; the other two methods
    are left open. *)
Definition specProvider (decode : string -> RawMessage -> result Configuration.t)
    (absolute_url : string -> bool) (enabled : string -> bool)
    (strategy : string -> string -> option ScopeStrategy)
  : configuration.Provider :=
  {| configuration.AuthenticatorIsEnabled := enabled;
     configuration.AuthenticatorConfig := fun id config =>
       match decode id config with
       | Err err => Err err
       | Ok c =>
           if validConfiguration absolute_url c then Ok c
           else Err (lib_err "configuration does not validate")
       end;
     configuration.ToScopeStrategy := strategy |}.

(** ** A small world to run the authenticator in *)

Module Sample.

Definition pre : PreAuth.t :=
  {| PreAuth.Enabled := true; PreAuth.ClientID := "proxy";
     PreAuth.ClientSecret := "secret"; PreAuth.Scope := ["introspect"];
     PreAuth.TokenURL := "https://idp.example/oauth2/token" |}.

Definition cfg (pre : option PreAuth.t) (retry : option Retry.t)
    (strategy : string) : Configuration.t :=
  {| Configuration.Scopes := ["read"];
     Configuration.Audience := ["api"];
     Configuration.Issuers := [];
     Configuration.PreAuth := pre;
     Configuration.ScopeStrategy := strategy;
     Configuration.IntrospectionURL := "https://idp.example/oauth2/introspect";
     Configuration.BearerTokenLocation := None;
     Configuration.IntrospectionRequestHeaders := None;
     Configuration.Retry := retry |}.

(** [fosite.ExactScopeStrategy] *)
Definition ExactScopeStrategy : ScopeStrategy :=
  fun haystack needle => stringslice_Has haystack needle.

(** A decoder that knows five raw configurations by name. *)
Definition decode (id : string) (config : RawMessage) : result Configuration.t :=
  if String.eqb config "plain" then Ok (cfg None None "none")
  else if String.eqb config "exact" then Ok (cfg None None "exact")
  else if String.eqb config "preauth" then Ok (cfg (Some pre) None "none")
  else if String.eqb config "preauth-bad-retry" then
    Ok (cfg (Some pre)
          (Some {| Retry.Timeout := "soon"; Retry.MaxWait := EmptyString |}) "none")
  else if String.eqb config "preauth-no-secret" then
    Ok (cfg (Some {| PreAuth.Enabled := true; PreAuth.ClientID := "proxy";
                     PreAuth.ClientSecret := EmptyString; PreAuth.Scope := [];
                     PreAuth.TokenURL := "https://idp.example/oauth2/token" |})
          None "none")
  else Err (lib_err "invalid configuration").

Definition strategy (value key : string) : option ScopeStrategy :=
  if String.eqb value "exact" then Some ExactScopeStrategy else None.

(** A provider that accepts whatever decodes. *)
Definition provider (enabled : bool) : configuration.Provider :=
  {| configuration.AuthenticatorIsEnabled := fun _ => enabled;
     configuration.AuthenticatorConfig := decode;
     configuration.ToScopeStrategy := strategy |}.

(** A provider that validates as the spec says. *)
Definition validating_provider : configuration.Provider :=
  specProvider decode (String.prefix "https://") (fun _ => true) strategy.

(** An inbound request carrying [token] in a header [Token]. *)
Definition request (token : option string) : http.Request :=
  {| http.Method := "GET"; http.URL := "https://proxy.example/orders";
     http.ReqHeader :=
       match token with
       | Some token => {[ "Token" := [token] ]}
       | None => ∅
       end;
     http.Form := ∅ |}.

Definition active : Result.t :=
  {| Result.Active := true;
     Result.Extra := Some {[ "username" := VString "shadowed"; "tenant" := VString "t1" ]};
     Result.Subject := "u1"; Result.Username := "alice";
     Result.Audience := ["api"]; Result.TokenType := EmptyString;
     Result.Issuer := "https://idp.example"; Result.ClientID := "app";
     Result.Scope := "read write" |}.

Definition inactive_refresh : Result.t :=
  {| Result.Active := false; Result.Extra := None;
     Result.Subject := EmptyString; Result.Username := EmptyString;
     Result.Audience := []; Result.TokenType := "refresh_token";
     Result.Issuer := EmptyString; Result.ClientID := EmptyString;
     Result.Scope := EmptyString |}.

Definition inactive : Result.t :=
  {| Result.Active := false; Result.Extra := None;
     Result.Subject := "u1"; Result.Username := "alice";
     Result.Audience := ["billing"]; Result.TokenType := "access_token";
     Result.Issuer := "https://elsewhere.example"; Result.ClientID := "app";
     Result.Scope := "write" |}.

Definition write_only : Result.t :=
  {| Result.Active := true; Result.Extra := None;
     Result.Subject := "u1"; Result.Username := "alice";
     Result.Audience := ["api"]; Result.TokenType := "access_token";
     Result.Issuer := "https://idp.example"; Result.ClientID := "app";
     Result.Scope := "write" |}.

(** The endpoint answers by the token it is asked about; the extractor
    reads the header [Token]; every URL parses; header names are taken as
    they are. *)
Definition env : Env :=
  {| BearerTokenFromRequest := fun r _ =>
       match http.ReqHeader r !! "Token" with
       | Some (token :: _) => token
       | _ => EmptyString
       end;
     url_Parse := fun _ => None;
     CanonicalMIMEHeaderKey := fun key => key;
     Do := fun _ req =>
       match http.Form req !! "token" with
       | Some (token :: _) =>
           if String.eqb token "down" then Err (lib_err "connection refused")
           else if String.eqb token "broken" then
             Ok {| http.StatusCode := 500; http.Body := EmptyString |}
           else Ok {| http.StatusCode := 200; http.Body := token |}
       | _ => Ok {| http.StatusCode := 400; http.Body := EmptyString |}
       end;
     Decode := fun body =>
       if String.eqb body "abc" then Ok active
       else if String.eqb body "refresh" then Ok inactive_refresh
       else if String.eqb body "old" then Ok inactive
       else if String.eqb body "writer" then Ok write_only
       else Err (lib_err "invalid character") |}.

Definition authenticator : Authenticator.t :=
  NewAuthenticatorOAuth2Introspection (provider true).

Definition session : Session.t :=
  {| Session.Subject := "nobody"; Session.Extra := None |}.

End Sample.

(** ** Vocabulary for runs of several calls *)

(** [Config] called on each raw configuration of [configs] in turn, as
    successive requests make it: the authenticator the calls leave. *)
Definition Configs (a : Authenticator.t) (configs : list RawMessage)
  : Authenticator.t :=
  fold_left (fun a config => snd (Config a config)) configs a.

(** [config] resolves, under the provider of [a], with pre-authorization
    enabled. *)
Definition installs (a : Authenticator.t) (config : RawMessage) : Prop :=
  exists cf a' pre,
    Config a config = (Ok cf, a') /\
    Configuration.PreAuth cf = Some pre /\
    PreAuth.Enabled pre = true.

(** The pre-authorization of a decoded configuration is absent or
    disabled. *)
Definition preAuthOff (c : Configuration.t) : Prop :=
  Configuration.PreAuth c = None \/
  exists pre, Configuration.PreAuth c = Some pre /\ PreAuth.Enabled pre = false.

(** No byte of [s] is a space. *)
Fixpoint spaceless (s : string) : bool :=
  match s with
  | EmptyString => true
  | String ch s' => negb (Ascii.eqb ch " "%char) && spaceless s'
  end.

(** ** Package [models]: the health status of the generated client *)

Module models.

(** [swag.WriteJSON] and [swag.ReadJSON] at [HealthNotReadyStatus]: the
    JSON codec of the generated client. *)
Record swag (T : Type) : Type := {
  WriteJSON : T -> result string;
  ReadJSON : string -> result T
}.
Arguments WriteJSON {T} _ _.
Arguments ReadJSON {T} _ _.

(** [HealthNotReadyStatus] *)
Record HealthNotReadyStatus : Type := {
  Errors : option (gmap string string)
}.

(** [Validate]: nothing to validate. *)
Definition Validate (m : HealthNotReadyStatus) : option error := None.

(** [MarshalBinary]: a [nil] receiver marshals to [nil] bytes. *)
Definition MarshalBinary (codec : swag HealthNotReadyStatus)
    (m : option HealthNotReadyStatus) : result (option string) :=
  match m with
  | None => Ok None
  | Some m =>
      match WriteJSON codec m with
      | Ok b => Ok (Some b)
      | Err err => Err err
      end
  end.

(** [UnmarshalBinary], for a receiver that is not [nil]: the bytes are
    decoded into a fresh [res], which is stored only when decoding
    succeeded. *)
Definition UnmarshalBinary (codec : swag HealthNotReadyStatus)
    (m : HealthNotReadyStatus) (b : string)
  : option error * HealthNotReadyStatus :=
  match ReadJSON codec b with
  | Err err => (Some err, m)
  | Ok res => (None, res)
  end.

End models.

(** ** More of the sample world *)

Module Sample2.

(** A decoder that knows six more raw configurations by name. *)
Definition decode (id : string) (config : RawMessage) : result Configuration.t :=
  if String.eqb config "billing" then
    Ok {| Configuration.Scopes := ["read"];
          Configuration.Audience := ["api"; "billing"; "ledger"];
          Configuration.Issuers := [];
          Configuration.PreAuth := None;
          Configuration.ScopeStrategy := "exact";
          Configuration.IntrospectionURL := "https://idp.example/oauth2/introspect";
          Configuration.BearerTokenLocation := None;
          Configuration.IntrospectionRequestHeaders := None;
          Configuration.Retry := None |}
  else if String.eqb config "issuers" then
    Ok {| Configuration.Scopes := ["read"];
          Configuration.Audience := ["api"];
          Configuration.Issuers := ["https://other.example"];
          Configuration.PreAuth := None;
          Configuration.ScopeStrategy := "exact";
          Configuration.IntrospectionURL := "https://idp.example/oauth2/introspect";
          Configuration.BearerTokenLocation := None;
          Configuration.IntrospectionRequestHeaders := None;
          Configuration.Retry := None |}
  else if String.eqb config "headers" then
    Ok {| Configuration.Scopes := [];
          Configuration.Audience := [];
          Configuration.Issuers := [];
          Configuration.PreAuth := None;
          Configuration.ScopeStrategy := "none";
          Configuration.IntrospectionURL := "https://idp.example/oauth2/introspect";
          Configuration.BearerTokenLocation := None;
          Configuration.IntrospectionRequestHeaders :=
            Some {[ "Content-Type" := "application/json"; "X-Tenant" := "t1" ]};
          Configuration.Retry := None |}
  else if String.eqb config "disabled-bad-retry" then
    Ok (Sample.cfg
          (Some {| PreAuth.Enabled := false; PreAuth.ClientID := EmptyString;
                   PreAuth.ClientSecret := EmptyString; PreAuth.Scope := [];
                   PreAuth.TokenURL := EmptyString |})
          (Some {| Retry.Timeout := "soon"; Retry.MaxWait := EmptyString |})
          "none")
  else if String.eqb config "half-retry" then
    Ok (Sample.cfg (Some Sample.pre)
          (Some {| Retry.Timeout := EmptyString; Retry.MaxWait := "2s" |}) "none")
  else if String.eqb config "slow" then
    Ok (Sample.cfg (Some Sample.pre)
          (Some {| Retry.Timeout := "3h"; Retry.MaxWait := "4h" |}) "none")
  else Sample.decode id config.

Definition provider : configuration.Provider :=
  {| configuration.AuthenticatorIsEnabled := fun _ => true;
     configuration.AuthenticatorConfig := decode;
     configuration.ToScopeStrategy := Sample.strategy |}.

Definition authenticator : Authenticator.t :=
  NewAuthenticatorOAuth2Introspection provider.

(** A codec for the health status that reads two byte strings. *)
Definition codec : models.swag models.HealthNotReadyStatus :=
  {| models.WriteJSON := fun m =>
       match models.Errors m with
       | None => Ok "{}"
       | Some _ => Ok "{errors}"
       end;
     models.ReadJSON := fun b =>
       if String.eqb b "{}" then Ok {| models.Errors := None |}
       else if String.eqb b "{errors}" then
         Ok {| models.Errors := Some {[ "database" := "down" ]} |}
       else Err (lib_err "invalid character") |}.

End Sample2.

(** * Properties *)

(** ** [time.ParseDuration] on some durations *)

Example ParseDuration_500ms : time.ParseDuration "500ms" = inr 500000000.
Proof. vm_compute. reflexivity. Qed.

Example ParseDuration_1s : time.ParseDuration "1s" = inr 1000000000.
Proof. vm_compute. reflexivity. Qed.

Example ParseDuration_1h30m : time.ParseDuration "1.5h30m" = inr 7200000000000.
Proof. vm_compute. reflexivity. Qed.

Example ParseDuration_neg : time.ParseDuration "-1.25ms" = inr (-1250000).
Proof. vm_compute. reflexivity. Qed.

Example ParseDuration_bare : time.ParseDuration "500" = inl (time_missing_unit "500").
Proof. vm_compute. reflexivity. Qed.

Example ParseDuration_abc : time.ParseDuration "abc" = inl (time_invalid_duration "abc").
Proof. vm_compute. reflexivity. Qed.

(** ** [time.ParseDuration] never runs out of fuel *)

Lemma leadingInt_from_length x s v rest :
  time.leadingInt_from x s = Some (v, rest) ->
  (String.length rest <= String.length s)%nat.
Proof.
  revert x. induction s as [|ch s IH]; intros x H; simpl in H.
  - injection H as _ <-. reflexivity.
  - destruct (time.is_digit ch).
    + destruct (x >? 2 ^ 63 / 10); [discriminate|].
      destruct (u64 (x * 10 + time.byte ch - 48) >? 2 ^ 63); [discriminate|].
      apply IH in H. simpl. lia.
    + injection H as _ <-. reflexivity.
Qed.

Lemma leadingFraction_from_length x scale overflow s :
  (String.length (snd (time.leadingFraction_from x scale overflow s))
   <= String.length s)%nat.
Proof.
  revert x scale overflow. induction s as [|ch s IH]; intros x scale overflow; simpl.
  - reflexivity.
  - destruct (time.is_digit ch); [|reflexivity].
    destruct overflow; [etrans; [apply IH|lia]|].
    destruct (x >? (2 ^ 63 - 1) / 10); [etrans; [apply IH|lia]|].
    destruct (u64 (x * 10 + time.byte ch - 48) >? 2 ^ 63); (etrans; [apply IH|lia]).
Qed.

Lemma span_unit_length s :
  (String.length (fst (time.span_unit s)) + String.length (snd (time.span_unit s))
   = String.length s)%nat.
Proof.
  induction s as [|ch s IH]; simpl; [reflexivity|].
  destruct (time.is_dot ch || time.is_digit ch); simpl; [reflexivity|].
  destruct (time.span_unit s) as [u rest]. simpl in *. lia.
Qed.

(** A term that parses leaves strictly less of the string. *)
Lemma parse_term_shorter orig s v rest :
  time.parse_term orig s = inr (v, rest) ->
  (String.length rest < String.length s)%nat.
Proof.
  unfold time.parse_term. destruct s as [|c0 s0]; [discriminate|].
  destruct (negb _); [discriminate|].
  destruct (time.leadingInt (String c0 s0)) as [[v0 s1]|] eqn:Hint; [|discriminate].
  apply leadingInt_from_length in Hint.
  set (frac := match s1 with
               | String c s1' =>
                   if time.is_dot c then
                     let '(f, scale, s2) := time.leadingFraction s1' in
                     (f, scale, s2, negb (time.Zlen s1' =? time.Zlen s2))
                   else (0, 1%float, s1, false)
               | EmptyString => (0, 1%float, s1, false)
               end).
  assert (Hfrac : (String.length (snd (fst frac)) <= String.length s1)%nat).
  { subst frac. destruct s1 as [|c s1']; [reflexivity|].
    destruct (time.is_dot c); [|reflexivity].
    unfold time.leadingFraction.
    pose proof (leadingFraction_from_length 0 1%float false s1') as Hl.
    destruct (time.leadingFraction_from 0 1 false s1') as [[f scale] s2].
    simpl in *. lia. }
  destruct frac as [[[f scale] s2] post]. simpl in Hfrac.
  destruct (negb _ && negb post); [discriminate|].
  pose proof (span_unit_length s2) as Hspan.
  destruct (time.span_unit s2) as [u s3]. simpl in Hspan.
  destruct (time.Zlen u =? 0) eqn:Hu; [discriminate|].
  apply Z.eqb_neq in Hu. unfold time.Zlen in Hu.
  destruct (time.unitMap u) as [unit|]; [|discriminate].
  destruct (v0 >? 2 ^ 63 / unit); [discriminate|].
  destruct (f >? 0).
  - destruct (_ >? 2 ^ 63); [discriminate|].
    intros [= _ <-]. lia.
  - intros [= _ <-]. lia.
Qed.

(** Any fuel at least the length of the string gives the same result: the
    bound on the loop is never what stops it. *)
Lemma parse_terms_fuel n m orig s d :
  (String.length s <= n)%nat -> (String.length s <= m)%nat ->
  time.parse_terms n orig s d = time.parse_terms m orig s d.
Proof.
  revert m s d. induction n as [|n IH]; intros m s d Hn Hm.
  - destruct s; [destruct m; reflexivity|simpl in Hn; lia].
  - destruct s as [|ch s]; [destruct m; reflexivity|].
    destruct m as [|m]; [simpl in Hm; lia|].
    cbn [time.parse_terms]. destruct (time.parse_term orig (String ch s)) as [e|[v rest]] eqn:Hterm;
      [reflexivity|].
    destruct (u64 (d + v) >? 2 ^ 63); [reflexivity|].
    apply parse_term_shorter in Hterm. simpl in Hterm, Hn, Hm.
    apply IH; lia.
Qed.

(** The loop stops for lack of fuel only on an empty budget: with the
    length of the string as fuel it unfolds one term at a time. *)
Lemma parse_terms_step orig ch s d :
  time.parse_terms (String.length (String ch s)) orig (String ch s) d =
  match time.parse_term orig (String ch s) with
  | inl e => inl e
  | inr (v, rest) =>
      if u64 (d + v) >? 2 ^ 63 then inl (time_invalid_duration orig)
      else time.parse_terms (String.length rest) orig rest (u64 (d + v))
  end.
Proof.
  cbn [String.length time.parse_terms].
  destruct (time.parse_term orig (String ch s)) as [e|[v rest]] eqn:Hterm;
    [reflexivity|].
  destruct (u64 (d + v) >? 2 ^ 63); [reflexivity|].
  apply parse_term_shorter in Hterm. simpl in Hterm.
  apply parse_terms_fuel; lia.
Qed.

(** ** The sample world, end to end *)

(** A token the endpoint reports as active for audience [api] with scopes
    [read write], under the exact strategy with [read] required: success,
    and the session takes the subject. *)
Example Authenticate_sample_success :
  Authenticate Sample.env Sample.authenticator (Sample.request (Some "abc"))
    Sample.session "exact"
  = (None, updateSession Sample.session Sample.active, Sample.authenticator) /\
  Session.Subject (updateSession Sample.session Sample.active) = "u1".
Proof. split; [vm_compute; reflexivity|reflexivity]. Qed.

(** A status other than 200 is reported as such, before any decoding. *)
Example Authenticate_sample_status_500 :
  Authenticate Sample.env Sample.authenticator (Sample.request (Some "broken"))
    Sample.session "exact"
  = (Some (Errorf_status 500 200), Sample.session, Sample.authenticator).
Proof. vm_compute; reflexivity. Qed.

(** With pre-authorization enabled, the run leaves the authenticator with
    the client [Config] built, and it is that client the request went
    through. *)
Example Authenticate_sample_preauth_client :
  Authenticator.client
    (snd (Authenticate Sample.env Sample.authenticator (Sample.request (Some "abc"))
            Sample.session "preauth"))
  = NewResilientClientLatencyToleranceConfigurable
      (rt_clientcredentials
         {| clientcredentials.ClientID := "proxy";
            clientcredentials.ClientSecret := "secret";
            clientcredentials.Scopes := ["introspect"];
            clientcredentials.TokenURL := "https://idp.example/oauth2/token" |})
      (500000 * time.Second) time.Second.
Proof. vm_compute; reflexivity. Qed.

(** ** Shared facts about [Authenticate] *)

(** Setting headers leaves the form alone. *)
Lemma introspectionRequest_Form E cf body introspectReq :
  introspectionRequest E cf body = Ok introspectReq ->
  http.Form introspectReq = body.
Proof.
  unfold introspectionRequest, NewRequest.
  destruct (url_Parse E _); [discriminate|].
  intros [= <-]. cbn [Header_Set http.Form].
  generalize (default ∅ (Configuration.IntrospectionRequestHeaders cf)).
  intros headers.
  apply (map_fold_weak_ind (fun req _ => http.Form req = body)).
  - reflexivity.
  - intros key value m req _ IH. exact IH.
Qed.

(** A run that gets as far as the checks ends as the checks say. *)
Lemma Authenticate_introspects E a r session config cf a' introspectReq i :
  Config a config = (Ok cf, a') ->
  introspects E a' r cf introspectReq i ->
  Authenticate E a r session config =
  match checkResult cf (scopeStrategy a' cf) i with
  | Some err => (Some err, session, a')
  | None => (None, updateSession session i, a')
  end.
Proof.
  intros Hcf (Htoken & Hreq & resp & Hdo & Hstatus & Hdecode).
  unfold requestToken, scopeStrategy in *.
  unfold Authenticate. rewrite Hcf.
  apply String.eqb_neq in Htoken. rewrite Htoken.
  rewrite Hreq, Hdo, Hstatus, Hdecode. reflexivity.
Qed.

(** A run ends without error only through the checks. *)
Lemma Authenticate_success_inv E a r session config session' a' :
  Authenticate E a r session config = (None, session', a') ->
  exists cf introspectReq i,
    Config a config = (Ok cf, a') /\
    introspects E a' r cf introspectReq i /\
    checkResult cf (scopeStrategy a' cf) i = None /\
    session' = updateSession session i.
Proof.
  unfold Authenticate, introspects, requestToken, scopeStrategy.
  destruct (Config a config) as [[cf|err] a1]; [|discriminate].
  destruct (String.eqb _ EmptyString) eqn:Htoken; [discriminate|].
  destruct (introspectionRequest _ _ _) as [introspectReq|err] eqn:Hreq; [|discriminate].
  destruct (Do E _ introspectReq) as [resp|err] eqn:Hdo; [|discriminate].
  destruct (negb _) eqn:Hstatus; [discriminate|].
  destruct (Decode E _) as [i|err] eqn:Hdecode; [|discriminate].
  destruct (checkResult _ _ i) eqn:Hcheck; [discriminate|].
  intros [= <- <-]. exists cf, introspectReq, i.
  apply String.eqb_neq in Htoken. apply negb_false_iff, Z.eqb_eq in Hstatus.
  repeat split; eauto.
Qed.

(** With a strategy, the checks are those made without one, then the scope
    loop. *)
Lemma checkResult_strategy cf ss i :
  checkResult cf (Some ss) i =
  match checkResult cf None i with
  | Some err => Some err
  | None =>
      match find (fun scope => negb (ss (strings_Split (Result.Scope i) " "%char) scope))
                 (Configuration.Scopes cf) with
      | Some scope => Some (ErrForbidden ("Scope " +:+ scope +:+ " was not granted"))
      | None => None
      end
  end.
Proof.
  unfold checkResult.
  destruct (_ && _); [reflexivity|].
  destruct (negb (Result.Active i)); [reflexivity|].
  destruct (find _ (Configuration.Audience cf)); [reflexivity|].
  destruct (_ && _); reflexivity.
Qed.

(** ** The active flag *)

(** C1, as the spec words it, fails: the token type is checked before the
    active flag.  Asked about the token [refresh], the sample endpoint
    answers [active = false] with token type [refresh_token], and
    [Authenticate] returns Forbidden, not Unauthorized. *)
Lemma Authenticate_inactive_refresh_token_forbidden :
  introspects Sample.env Sample.authenticator (Sample.request (Some "refresh"))
    (Sample.cfg None None "none")
    {| http.Method := "POST";
       http.URL := "https://idp.example/oauth2/introspect";
       http.ReqHeader := {[ "Content-Type" := ["application/x-www-form-urlencoded"] ]};
       http.Form := {[ "token" := ["refresh"]; "scope" := ["read"] ]} |}
    Sample.inactive_refresh /\
  Result.Active Sample.inactive_refresh = false /\
  Authenticate Sample.env Sample.authenticator (Sample.request (Some "refresh"))
    Sample.session "plain"
  = (Some (ErrForbidden
             ("Introspected token is not an access token but "
              +:+ dquote +:+ "refresh_token" +:+ dquote)),
     Sample.session, Sample.authenticator) /\
  forall err session' a',
    Authenticate Sample.env Sample.authenticator (Sample.request (Some "refresh"))
      Sample.session "plain" = (Some err, session', a') ->
    isUnauthorized err = false.
Proof.
  assert (Hrun :
    Authenticate Sample.env Sample.authenticator (Sample.request (Some "refresh"))
      Sample.session "plain"
    = (Some (ErrForbidden
               ("Introspected token is not an access token but "
                +:+ dquote +:+ "refresh_token" +:+ dquote)),
       Sample.session, Sample.authenticator)) by (vm_compute; reflexivity).
  split; [|split; [reflexivity|split; [exact Hrun|]]].
  - split; [discriminate|]. split; [vm_compute; reflexivity|].
    eexists. split; [vm_compute; reflexivity|]. split; reflexivity.
  - intros err session' a'. rewrite Hrun. intros [= <- _ _]. reflexivity.
Qed.

(** C1, amended: when the decoded result has [active = false] and its token
    type is empty or [access_token], [Authenticate] returns Unauthorized,
    whatever the audience, the issuer, the scope and the other fields of
    the result are; the session is left as it was. *)
Theorem Authenticate_inactive_unauthorized
    E a r session config cf a' introspectReq i :
  Config a config = (Ok cf, a') ->
  introspects E a' r cf introspectReq i ->
  Result.Active i = false ->
  Result.TokenType i = EmptyString \/ Result.TokenType i = "access_token" ->
  Authenticate E a r session config
  = (Some (ErrUnauthorized "Access token i says token is not active"),
     session, a').
Proof.
  intros Hcf Hrun Hactive Htype.
  rewrite (Authenticate_introspects _ _ _ _ _ _ _ _ _ Hcf Hrun).
  assert (Hcheck : forall ss, checkResult cf ss i
            = Some (ErrUnauthorized "Access token i says token is not active")).
  { intros ss. unfold checkResult. rewrite Hactive.
    destruct Htype as [-> | ->]; reflexivity. }
  rewrite Hcheck. reflexivity.
Qed.

Lemma Authenticate_inactive_unauthorized_witness :
  Authenticate Sample.env Sample.authenticator (Sample.request (Some "old"))
    Sample.session "plain"
  = (Some (ErrUnauthorized "Access token i says token is not active"),
     Sample.session, Sample.authenticator).
Proof.
  apply (Authenticate_inactive_unauthorized Sample.env Sample.authenticator
           (Sample.request (Some "old")) Sample.session "plain"
           (Sample.cfg None None "none") Sample.authenticator
           {| http.Method := "POST";
              http.URL := "https://idp.example/oauth2/introspect";
              http.ReqHeader :=
                {[ "Content-Type" := ["application/x-www-form-urlencoded"] ]};
              http.Form := {[ "token" := ["old"]; "scope" := ["read"] ]} |}
           Sample.inactive).
  - vm_compute; reflexivity.
  - split; [discriminate|]. split; [vm_compute; reflexivity|].
    eexists. split; [vm_compute; reflexivity|]. split; reflexivity.
  - reflexivity.
  - right; reflexivity.
Defined.

(** ** Requests without a token *)

(** C8: when the configuration resolves and the extractor finds no token at
    the configured location, [Authenticate] returns
    [ErrAuthenticatorNotResponsible], and so no other error; the session is
    left as it was. *)
Theorem Authenticate_no_token_not_responsible E a r session config cf a' :
  Config a config = (Ok cf, a') ->
  requestToken E r cf = EmptyString ->
  Authenticate E a r session config
  = (Some ErrAuthenticatorNotResponsible, session, a').
Proof.
  intros Hcf Htoken. unfold requestToken in Htoken.
  unfold Authenticate. rewrite Hcf, Htoken. reflexivity.
Qed.

Lemma Authenticate_no_token_not_responsible_witness :
  Authenticate Sample.env Sample.authenticator (Sample.request None)
    Sample.session "exact"
  = (Some ErrAuthenticatorNotResponsible, Sample.session, Sample.authenticator).
Proof.
  apply (Authenticate_no_token_not_responsible Sample.env Sample.authenticator
           (Sample.request None) Sample.session "exact"
           (Sample.cfg None None "exact") Sample.authenticator).
  - vm_compute; reflexivity.
  - vm_compute; reflexivity.
Defined.

(** ** A disabled authenticator *)

(** C9: when the provider reports the authenticator as disabled, [Validate]
    returns the not-enabled error for every raw configuration, without
    looking at it. *)
Theorem Validate_disabled_not_enabled a config :
  configuration.AuthenticatorIsEnabled (Authenticator.c a) (GetID a) = false ->
  Validate a config = (Some (NewErrAuthenticatorNotEnabled a), a).
Proof.
  intros Hdisabled. unfold Validate. rewrite Hdisabled. reflexivity.
Qed.

Lemma Validate_disabled_not_enabled_witness :
  Validate (NewAuthenticatorOAuth2Introspection (Sample.provider false)) "{"
  = (Some (ErrAuthenticatorNotEnabled "oauth2_introspection"),
     NewAuthenticatorOAuth2Introspection (Sample.provider false)) /\
  Validate (NewAuthenticatorOAuth2Introspection (Sample.provider false)) "plain"
  = (Some (ErrAuthenticatorNotEnabled "oauth2_introspection"),
     NewAuthenticatorOAuth2Introspection (Sample.provider false)).
Proof.
  split.
  - apply (Validate_disabled_not_enabled
             (NewAuthenticatorOAuth2Introspection (Sample.provider false)) "{").
    reflexivity.
  - apply (Validate_disabled_not_enabled
             (NewAuthenticatorOAuth2Introspection (Sample.provider false)) "plain").
    reflexivity.
Defined.

(** ** The session on failure *)

(** C10: a run of [Authenticate] that returns an error, whichever it is,
    leaves the session as it was given: neither the subject nor the extra
    claims change. *)
Theorem Authenticate_error_keeps_session E a r session config :
  fst (fst (Authenticate E a r session config)) <> None ->
  snd (fst (Authenticate E a r session config)) = session.
Proof.
  unfold Authenticate.
  destruct (Config a config) as [[cf|e] a1]; [|reflexivity].
  destruct (String.eqb _ EmptyString); [reflexivity|].
  destruct (introspectionRequest _ _ _) as [introspectReq|e]; [|reflexivity].
  destruct (Do E _ introspectReq) as [resp|e]; [|reflexivity].
  destruct (negb _); [reflexivity|].
  destruct (Decode E _) as [i|e]; [|reflexivity].
  destruct (checkResult _ _ i); [reflexivity|].
  intros Herr. exfalso. apply Herr. reflexivity.
Qed.

Lemma Authenticate_error_keeps_session_witness :
  fst (fst (Authenticate Sample.env Sample.authenticator
              (Sample.request (Some "broken")) Sample.session "plain"))
  = Some (Errorf_status 500 200) /\
  snd (fst (Authenticate Sample.env Sample.authenticator
              (Sample.request (Some "broken")) Sample.session "plain"))
  = Sample.session.
Proof.
  split; [vm_compute; reflexivity|].
  apply (Authenticate_error_keeps_session Sample.env Sample.authenticator
           (Sample.request (Some "broken")) Sample.session "plain").
  vm_compute. discriminate.
Defined.

(** ** The session on success *)

Lemma resultExtra_other i k :
  k <> "username" -> k <> "client_id" -> k <> "scope" ->
  resultExtra i !! k = default ∅ (Result.Extra i) !! k.
Proof.
  intros Hu Hc Hs. unfold resultExtra.
  rewrite !lookup_insert_ne by congruence.
  destruct (Result.Extra i) as [m|]; simpl; [|reflexivity].
  destruct (size m =? 0)%nat eqn:Hsize; [|reflexivity].
  apply Nat.eqb_eq, map_size_empty_inv in Hsize. subst m. reflexivity.
Qed.

(** C7: a run of [Authenticate] that returns [nil] went through the checks
    with some decoded result [i], and leaves a session whose subject is the
    subject of [i] and whose extra claims map [username], [client_id] and
    [scope] to the values of [i], and every other key to what the
    endpoint's [ext] object had there (nothing, if it had no [ext]). *)
Theorem Authenticate_success_session E a r session config session' a' :
  Authenticate E a r session config = (None, session', a') ->
  exists cf introspectReq i extra,
    Config a config = (Ok cf, a') /\
    introspects E a' r cf introspectReq i /\
    Session.Subject session' = Result.Subject i /\
    Session.Extra session' = Some extra /\
    extra !! "username" = Some (VString (Result.Username i)) /\
    extra !! "client_id" = Some (VString (Result.ClientID i)) /\
    extra !! "scope" = Some (VString (Result.Scope i)) /\
    forall k, k <> "username" -> k <> "client_id" -> k <> "scope" ->
      extra !! k = default ∅ (Result.Extra i) !! k.
Proof.
  intros Hrun.
  apply Authenticate_success_inv in Hrun as (cf & introspectReq & i & Hcf & Hi & _ & ->).
  exists cf, introspectReq, i, (resultExtra i).
  split; [exact Hcf|]. split; [exact Hi|].
  split; [reflexivity|]. split; [reflexivity|].
  unfold resultExtra at 1 2 3.
  split; [|split; [|split]].
  - rewrite !lookup_insert_ne by discriminate. apply lookup_insert_eq.
  - rewrite lookup_insert_ne by discriminate. apply lookup_insert_eq.
  - apply lookup_insert_eq.
  - apply resultExtra_other.
Qed.

Lemma Authenticate_success_session_witness :
  exists cf introspectReq i extra,
    Config Sample.authenticator "exact" = (Ok cf, Sample.authenticator) /\
    introspects Sample.env Sample.authenticator (Sample.request (Some "abc"))
      cf introspectReq i /\
    Session.Subject (updateSession Sample.session Sample.active) = Result.Subject i /\
    Session.Extra (updateSession Sample.session Sample.active) = Some extra /\
    extra !! "username" = Some (VString (Result.Username i)) /\
    extra !! "client_id" = Some (VString (Result.ClientID i)) /\
    extra !! "scope" = Some (VString (Result.Scope i)) /\
    forall k, k <> "username" -> k <> "client_id" -> k <> "scope" ->
      extra !! k = default ∅ (Result.Extra i) !! k.
Proof.
  apply (Authenticate_success_session Sample.env Sample.authenticator
           (Sample.request (Some "abc")) Sample.session "exact"
           (updateSession Sample.session Sample.active) Sample.authenticator).
  vm_compute; reflexivity.
Defined.

(** The endpoint's own [username] in [ext] is overwritten, its other keys
    are kept. *)
Example resultExtra_active :
  default ∅ (Result.Extra Sample.active) !! "username" = Some (VString "shadowed") /\
  resultExtra Sample.active !! "username" = Some (VString "alice") /\
  resultExtra Sample.active !! "client_id" = Some (VString "app") /\
  resultExtra Sample.active !! "scope" = Some (VString "read write") /\
  resultExtra Sample.active !! "tenant" = Some (VString "t1").
Proof. vm_compute. repeat split; reflexivity. Qed.

(** ** Scopes: sent to the endpoint, or checked on return *)

Lemma stringslice_Has_In items x :
  stringslice_Has items x = true <-> In x items.
Proof.
  unfold stringslice_Has. rewrite existsb_exists. split.
  - intros (item & Hin & Heq). apply String.eqb_eq in Heq. subst. exact Hin.
  - intros Hin. exists x. split; [exact Hin|apply String.eqb_refl].
Qed.

Lemma find_None_iff {A : Type} (f : A -> bool) (l : list A) :
  find f l = None <-> forall x, In x l -> f x = false.
Proof.
  split.
  - apply find_none.
  - intros Hall. destruct (find f l) as [x|] eqn:Hfind; [|reflexivity].
    apply find_some in Hfind as [Hin Hfx]. rewrite (Hall x Hin) in Hfx.
    discriminate.
Qed.

(** Without a strategy the checks pass exactly on the admissible
    results. *)
Lemma checkResult_None_admissible cf i :
  checkResult cf None i = None <-> admissible cf i.
Proof.
  unfold checkResult, admissible. split.
  - destruct (_ && negb (String.eqb _ "access_token")) eqn:Htype; [discriminate|].
    destruct (Result.Active i); [|discriminate]. cbn [negb].
    destruct (find _ (Configuration.Audience cf)) eqn:Haud; [discriminate|].
    destruct (_ && negb (stringslice_Has _ _)) eqn:Hiss; [discriminate|].
    intros _. repeat split.
    + apply andb_false_iff in Htype as [Hlen|Heq].
      * left. destruct (Result.TokenType i); [reflexivity|discriminate].
      * right. apply negb_false_iff, String.eqb_eq in Heq. exact Heq.
    + intros audience Hin. apply stringslice_Has_In.
      apply (proj1 (find_None_iff _ _) Haud) in Hin.
      apply negb_false_iff in Hin. exact Hin.
    + apply andb_false_iff in Hiss as [Hlen|Hhas].
      * left. destruct (Configuration.Issuers cf); [reflexivity|discriminate].
      * right. apply negb_false_iff, stringslice_Has_In in Hhas. exact Hhas.
  - intros (Htype & Hactive & Haud & Hiss).
    assert (Htype' : ((0 <? String.length (Result.TokenType i))%nat
                      && negb (String.eqb (Result.TokenType i) "access_token"))
                     = false) by (destruct Htype as [-> | ->]; reflexivity).
    rewrite Htype', Hactive. cbn [negb].
    assert (Haud' : find (fun audience =>
                            negb (stringslice_Has (Result.Audience i) audience))
                      (Configuration.Audience cf) = None).
    { apply find_None_iff. intros audience Hin.
      apply negb_false_iff, stringslice_Has_In, Haud, Hin. }
    rewrite Haud'.
    assert (Hiss' : ((0 <? length (Configuration.Issuers cf))%nat
                     && negb (stringslice_Has (Configuration.Issuers cf)
                                (Result.Issuer i))) = false).
    { destruct Hiss as [-> | Hin]; [reflexivity|].
      apply andb_false_iff. right.
      apply negb_false_iff, stringslice_Has_In, Hin. }
    rewrite Hiss'. reflexivity.
Qed.

(** Before the scope loop, an active token is only ever refused as
    Forbidden. *)
Lemma checkResult_None_active_forbidden cf i err :
  checkResult cf None i = Some err ->
  Result.Active i = true ->
  isForbidden err = true.
Proof.
  unfold checkResult. intros Hcheck Hactive. rewrite Hactive in Hcheck.
  cbn [negb] in Hcheck.
  destruct (_ && negb (String.eqb _ "access_token")); [injection Hcheck as <-; reflexivity|].
  destruct (find _ (Configuration.Audience cf)); [injection Hcheck as <-; reflexivity|].
  destruct (_ && negb (stringslice_Has _ _)); [injection Hcheck as <-; reflexivity|].
  discriminate.
Qed.

(** C6: let [introspectReq] be the introspection request [Authenticate]
    builds under the resolved configuration.
    - Without a scope strategy, its form carries a [scope] field holding
      the required scopes joined by spaces, and in a run that gets as far
      as the checks the outcome is settled by the checks before the scopes
      alone: success on every admissible result, whatever scopes are
      required and granted, an error on every other.
    - With a scope strategy, its form carries no [scope] field, and in a
      run that gets as far as the checks: on an admissible result the run
      succeeds when every required scope passes the strategy against the
      granted scopes split on spaces, and returns Forbidden, naming a
      required scope that fails, when one does; on any result, a required
      scope that fails rules success out, and the error is Forbidden
      whenever the token is active. *)
Theorem Authenticate_scope_strategy E a r session config cf a' introspectReq :
  Config a config = (Ok cf, a') ->
  introspectionRequest E cf
    (introspectionBody (requestToken E r cf) (scopeStrategy a' cf)
       (Configuration.Scopes cf)) = Ok introspectReq ->
  (scopeStrategy a' cf = None ->
     http.Form introspectReq !! "scope"
     = Some [strings_Join (Configuration.Scopes cf) " "] /\
     forall i, introspects E a' r cf introspectReq i ->
       (admissible cf i ->
          Authenticate E a r session config
          = (None, updateSession session i, a')) /\
       (~ admissible cf i ->
          exists err, Authenticate E a r session config = (Some err, session, a')))
  /\
  (forall ss, scopeStrategy a' cf = Some ss ->
     http.Form introspectReq !! "scope" = None /\
     forall i, introspects E a' r cf introspectReq i ->
       (admissible cf i ->
        (forall scope, In scope (Configuration.Scopes cf) ->
                       ss (grantedScopes i) scope = true) ->
          Authenticate E a r session config
          = (None, updateSession session i, a')) /\
       (admissible cf i ->
        (exists scope, In scope (Configuration.Scopes cf) /\
                       ss (grantedScopes i) scope = false) ->
          exists scope,
            In scope (Configuration.Scopes cf) /\
            ss (grantedScopes i) scope = false /\
            Authenticate E a r session config
            = (Some (ErrForbidden ("Scope " +:+ scope +:+ " was not granted")),
               session, a')) /\
       ((exists scope, In scope (Configuration.Scopes cf) /\
                       ss (grantedScopes i) scope = false) ->
          exists err,
            Authenticate E a r session config = (Some err, session, a') /\
            (Result.Active i = true -> isForbidden err = true))).
Proof.
  intros Hcf Hreq.
  pose proof (introspectionRequest_Form _ _ _ _ Hreq) as Hform.
  split.
  - intros Hss. rewrite Hss in Hform. split.
    + rewrite Hform. unfold introspectionBody, Values_Add.
      rewrite lookup_insert_eq, lookup_singleton_ne by discriminate.
      reflexivity.
    + intros i Hrun.
      pose proof (Authenticate_introspects E a r session config cf a'
                    introspectReq i Hcf Hrun) as Hauth.
      rewrite Hss in Hauth. split.
      * intros Hadm. apply checkResult_None_admissible in Hadm.
        rewrite Hadm in Hauth. exact Hauth.
      * intros Hadm. destruct (checkResult cf None i) as [err|] eqn:Hcheck.
        -- exists err. exact Hauth.
        -- exfalso. apply Hadm, checkResult_None_admissible, Hcheck.
  - intros ss Hss. rewrite Hss in Hform. split.
    + rewrite Hform. unfold introspectionBody.
      apply lookup_singleton_ne. discriminate.
    + intros i Hrun.
      pose proof (Authenticate_introspects E a r session config cf a'
                    introspectReq i Hcf Hrun) as Hauth.
      rewrite Hss, checkResult_strategy in Hauth.
      fold (grantedScopes i) in Hauth.
      split; [|split].
      * intros Hadm Hall. apply checkResult_None_admissible in Hadm.
        rewrite Hadm in Hauth.
        assert (Hfind : find (fun scope => negb (ss (grantedScopes i) scope))
                          (Configuration.Scopes cf) = None).
        { apply find_None_iff. intros scope Hin.
          apply negb_false_iff, Hall, Hin. }
        rewrite Hfind in Hauth. exact Hauth.
      * intros Hadm (scope & Hin & Hfail).
        apply checkResult_None_admissible in Hadm. rewrite Hadm in Hauth.
        destruct (find (fun scope => negb (ss (grantedScopes i) scope))
                    (Configuration.Scopes cf)) as [first|] eqn:Hfind.
        -- apply find_some in Hfind as [Hin' Hfail'].
           apply negb_true_iff in Hfail'. exists first. auto.
        -- apply (proj1 (find_None_iff _ _) Hfind) in Hin.
           apply negb_false_iff in Hin. congruence.
      * intros (scope & Hin & Hfail).
        destruct (checkResult cf None i) as [err|] eqn:Hcheck.
        -- exists err. split; [exact Hauth|].
           apply (checkResult_None_active_forbidden cf i err Hcheck).
        -- destruct (find (fun scope => negb (ss (grantedScopes i) scope))
                       (Configuration.Scopes cf)) as [first|] eqn:Hfind.
           ++ eexists. split; [exact Hauth|reflexivity].
           ++ apply (proj1 (find_None_iff _ _) Hfind) in Hin.
              apply negb_false_iff in Hin. congruence.
Qed.

Lemma Authenticate_scope_strategy_witness :
  (http.Form
     {| http.Method := "POST";
        http.URL := "https://idp.example/oauth2/introspect";
        http.ReqHeader := {[ "Content-Type" := ["application/x-www-form-urlencoded"] ]};
        http.Form := {[ "token" := ["writer"]; "scope" := ["read"] ]} |} !! "scope"
   = Some ["read"] /\
   Authenticate Sample.env Sample.authenticator (Sample.request (Some "writer"))
     Sample.session "plain"
   = (None, updateSession Sample.session Sample.write_only, Sample.authenticator))
  /\
  (http.Form
     {| http.Method := "POST";
        http.URL := "https://idp.example/oauth2/introspect";
        http.ReqHeader := {[ "Content-Type" := ["application/x-www-form-urlencoded"] ]};
        http.Form := {[ "token" := ["writer"] ]} |} !! "scope"
   = None /\
   exists scope,
     In scope ["read"] /\
     Sample.ExactScopeStrategy ["write"] scope = false /\
     Authenticate Sample.env Sample.authenticator (Sample.request (Some "writer"))
       Sample.session "exact"
     = (Some (ErrForbidden ("Scope " +:+ scope +:+ " was not granted")),
        Sample.session, Sample.authenticator)).
Proof.
  assert (Hadm : forall strategy,
            admissible (Sample.cfg None None strategy) Sample.write_only).
  { intros strategy. split; [right; reflexivity|]. split; [reflexivity|].
    split; [intros audience Hin; exact Hin|left; reflexivity]. }
  assert (Hrun : forall strategy introspectReq,
            introspectionRequest Sample.env (Sample.cfg None None strategy)
              (introspectionBody
                 (requestToken Sample.env (Sample.request (Some "writer"))
                    (Sample.cfg None None strategy))
                 (scopeStrategy Sample.authenticator (Sample.cfg None None strategy))
                 (Configuration.Scopes (Sample.cfg None None strategy)))
            = Ok introspectReq ->
            http.Form introspectReq !! "token" = Some ["writer"] ->
            introspects Sample.env Sample.authenticator
              (Sample.request (Some "writer")) (Sample.cfg None None strategy)
              introspectReq Sample.write_only).
  { intros strategy introspectReq Hreq Htoken.
    split; [discriminate|]. split; [exact Hreq|].
    exists {| http.StatusCode := 200; http.Body := "writer" |}.
    split; [|split; reflexivity].
    cbn [Do Sample.env]. rewrite Htoken. reflexivity. }
  split.
  - destruct (Authenticate_scope_strategy Sample.env Sample.authenticator
                (Sample.request (Some "writer")) Sample.session "plain"
                (Sample.cfg None None "none") Sample.authenticator
                {| http.Method := "POST";
                   http.URL := "https://idp.example/oauth2/introspect";
                   http.ReqHeader :=
                     {[ "Content-Type" := ["application/x-www-form-urlencoded"] ]};
                   http.Form := {[ "token" := ["writer"]; "scope" := ["read"] ]} |})
      as [Hnone _].
    + vm_compute; reflexivity.
    + vm_compute; reflexivity.
    + destruct (Hnone eq_refl) as (Hform & Hchecks).
      split; [exact Hform|].
      apply (Hchecks Sample.write_only); [|apply Hadm].
      apply Hrun; vm_compute; reflexivity.
  - destruct (Authenticate_scope_strategy Sample.env Sample.authenticator
                (Sample.request (Some "writer")) Sample.session "exact"
                (Sample.cfg None None "exact") Sample.authenticator
                {| http.Method := "POST";
                   http.URL := "https://idp.example/oauth2/introspect";
                   http.ReqHeader :=
                     {[ "Content-Type" := ["application/x-www-form-urlencoded"] ]};
                   http.Form := {[ "token" := ["writer"] ]} |})
      as [_ Hsome].
    + vm_compute; reflexivity.
    + vm_compute; reflexivity.
    + destruct (Hsome Sample.ExactScopeStrategy eq_refl) as (Hform & Hchecks).
      split; [exact Hform|].
      destruct (Hchecks Sample.write_only) as (_ & Hfail & _).
      * apply Hrun; vm_compute; reflexivity.
      * apply Hfail; [apply Hadm|].
        exists "read". split; [left; reflexivity|vm_compute; reflexivity].
Defined.

(** ** Retry defaults *)

(** With pre-authorization enabled and no retry block, [Config] fills in
    ["500ms"] and ["1s"], and hands the resilient client one second as the
    maximum wait and [time.Millisecond * 500ms], that is 500000 seconds, as
    the delay. *)
Lemma Config_preauth_no_retry a config c pre :
  configuration.AuthenticatorConfig (Authenticator.c a) (GetID a) config = Ok c ->
  Configuration.PreAuth c = Some pre ->
  PreAuth.Enabled pre = true ->
  Configuration.Retry c = None ->
  Config a config
  = (Ok (Configuration.set_Retry c
           (Some {| Retry.Timeout := "500ms"; Retry.MaxWait := "1s" |})),
     {| Authenticator.c := Authenticator.c a;
        Authenticator.client :=
          NewResilientClientLatencyToleranceConfigurable
            (rt_clientcredentials
               {| clientcredentials.ClientID := PreAuth.ClientID pre;
                  clientcredentials.ClientSecret := PreAuth.ClientSecret pre;
                  clientcredentials.Scopes := PreAuth.Scope pre;
                  clientcredentials.TokenURL := PreAuth.TokenURL pre |})
            (500000 * time.Second) time.Second |}).
Proof.
  intros Hc Hpre Henabled Hretry.
  unfold Config. rewrite Hc, Hpre, Henabled, Hretry.
  cbn [default_Retry Retry.Timeout Retry.MaxWait].
  rewrite ParseDuration_500ms, ParseDuration_1s. reflexivity.
Qed.

(** C2 fails on the code: on the sample configuration with
    pre-authorization enabled and no retry block, the maximum wait handed
    to the resilient client is one second, but the delay is
    [time.Millisecond * 500ms] = 500000 seconds, not 500 milliseconds: the
    parsed duration is scaled by [time.Millisecond] once more. *)
Theorem Config_default_retry_delay_scaled_twice :
  exists cf rt timeout maxWait,
    Config Sample.authenticator "preauth"
    = (Ok cf,
       {| Authenticator.c := Authenticator.c Sample.authenticator;
          Authenticator.client :=
            NewResilientClientLatencyToleranceConfigurable rt timeout maxWait |}) /\
    Configuration.PreAuth cf = Some Sample.pre /\
    Configuration.Retry cf
    = Some {| Retry.Timeout := "500ms"; Retry.MaxWait := "1s" |} /\
    maxWait = 1 * time.Second /\
    timeout = 500000 * time.Second /\
    timeout <> 500 * time.Millisecond.
Proof.
  eexists _, _, _, _. split.
  - apply (Config_preauth_no_retry Sample.authenticator "preauth"
             (Sample.cfg (Some Sample.pre) None "none") Sample.pre);
      reflexivity.
  - repeat split. vm_compute. discriminate.
Qed.

(** ** Retry durations that do not parse *)

(** With pre-authorization enabled, a retry duration that does not parse
    makes [Config] fail with the error of [time.ParseDuration] as it is,
    and leaves the authenticator alone. *)
Lemma Config_unparsable_duration a config c pre e :
  configuration.AuthenticatorConfig (Authenticator.c a) (GetID a) config = Ok c ->
  Configuration.PreAuth c = Some pre ->
  PreAuth.Enabled pre = true ->
  time.ParseDuration (Retry.Timeout (default_Retry (Configuration.Retry c))) = inl e
  \/ ((exists d, time.ParseDuration
                   (Retry.Timeout (default_Retry (Configuration.Retry c))) = inr d) /\
      time.ParseDuration (Retry.MaxWait (default_Retry (Configuration.Retry c))) = inl e) ->
  Config a config = (Err (time_err e), a) /\
  isMisconfigured (time_err e) = false.
Proof.
  intros Hc Hpre Henabled Hbad. split; [|reflexivity].
  unfold Config. rewrite Hc, Hpre, Henabled.
  destruct Hbad as [Htimeout | [[d Htimeout] Hwait]]; rewrite Htimeout;
    [reflexivity|].
  rewrite Hwait. reflexivity.
Qed.

(** C4 fails on the code: on a sample configuration with pre-authorization
    enabled and the retry delay ["soon"], [Config] fails, but with the bare
    error of [time.ParseDuration], which is not the misconfiguration error;
    a configuration that does not decode does get that error. *)
Theorem Config_unparsable_duration_not_misconfigured :
  Config Sample.authenticator "preauth-bad-retry"
  = (Err (time_err (time_invalid_duration "soon")), Sample.authenticator) /\
  isMisconfigured (time_err (time_invalid_duration "soon")) = false /\
  Config Sample.authenticator "{"
  = (Err (NewErrAuthenticatorMisconfigured Sample.authenticator
            (lib_err "invalid configuration")),
     Sample.authenticator) /\
  isMisconfigured (NewErrAuthenticatorMisconfigured Sample.authenticator
                     (lib_err "invalid configuration")) = true.
Proof.
  split; [|split; [reflexivity|split; [vm_compute; reflexivity|reflexivity]]].
  apply (Config_unparsable_duration Sample.authenticator "preauth-bad-retry"
           (Sample.cfg (Some Sample.pre)
              (Some {| Retry.Timeout := "soon"; Retry.MaxWait := EmptyString |})
              "none")
           Sample.pre); try reflexivity.
  left. vm_compute. reflexivity.
Qed.

(** ** What [Config] does to the authenticator *)

(** C3, as the spec words it, fails: resolving the sample configuration
    with pre-authorization enabled replaces the client the authenticator
    was built with. *)
Lemma Config_preauth_replaces_client :
  Authenticator.client Sample.authenticator
  = NewResilientClientLatencyToleranceSmall rt_nil /\
  Authenticator.client (snd (Config Sample.authenticator "preauth"))
  = NewResilientClientLatencyToleranceConfigurable
      (rt_clientcredentials
         {| clientcredentials.ClientID := "proxy";
            clientcredentials.ClientSecret := "secret";
            clientcredentials.Scopes := ["introspect"];
            clientcredentials.TokenURL := "https://idp.example/oauth2/token" |})
      (500000 * time.Second) time.Second /\
  snd (Config Sample.authenticator "preauth") <> Sample.authenticator.
Proof.
  split; [reflexivity|]. split; [vm_compute; reflexivity|].
  intros Heq. apply (f_equal Authenticator.client) in Heq.
  vm_compute in Heq. discriminate.
Qed.

(** C3, amended: [Config] never changes the provider of the authenticator;
    it leaves the whole authenticator as it was whenever it fails and
    whenever the resolved configuration has pre-authorization absent or
    disabled; and when it succeeds with pre-authorization enabled, it
    replaces the stored client by a configurable resilient client over the
    client-credentials transport of the pre-authorization settings, built
    from the two retry durations. *)
Theorem Config_authenticator_frame a config :
  Authenticator.c (snd (Config a config)) = Authenticator.c a /\
  match Config a config with
  | (Err _, a') => a' = a
  | (Ok cf, a') =>
      match Configuration.PreAuth cf with
      | None => a' = a
      | Some pre =>
          if PreAuth.Enabled pre then
            exists retry duration maxWait,
              Configuration.Retry cf = Some retry /\
              time.ParseDuration (Retry.Timeout retry) = inr duration /\
              time.ParseDuration (Retry.MaxWait retry) = inr maxWait /\
              Authenticator.client a'
              = NewResilientClientLatencyToleranceConfigurable
                  (rt_clientcredentials
                     {| clientcredentials.ClientID := PreAuth.ClientID pre;
                        clientcredentials.ClientSecret := PreAuth.ClientSecret pre;
                        clientcredentials.Scopes := PreAuth.Scope pre;
                        clientcredentials.TokenURL := PreAuth.TokenURL pre |})
                  (time.mul time.Millisecond duration) maxWait
          else a' = a
      end
  end.
Proof.
  unfold Config.
  destruct (configuration.AuthenticatorConfig _ _ _) as [c|err];
    [|split; reflexivity].
  destruct (Configuration.PreAuth c) as [pre|] eqn:Hpre;
    [|cbn [snd]; rewrite Hpre; split; reflexivity].
  destruct (PreAuth.Enabled pre) eqn:Henabled;
    [|cbn [snd]; rewrite Hpre, Henabled; split; reflexivity].
  destruct (time.ParseDuration (Retry.Timeout _)) as [e|duration] eqn:Htimeout;
    [split; reflexivity|].
  destruct (time.ParseDuration (Retry.MaxWait _)) as [e|maxWait] eqn:Hwait;
    [split; reflexivity|].
  split; [reflexivity|].
  cbn [Configuration.set_Retry Configuration.PreAuth Configuration.Retry].
  rewrite Hpre, Henabled.
  exists (default_Retry (Configuration.Retry c)), duration, maxWait.
  repeat split; assumption.
Qed.

(** ** Blank pre-authorization credentials *)

(** [Config] makes no check of its own on the pre-authorization fields: it
    accepts, from a provider that accepts it, an enabled pre-authorization
    with an empty client secret. *)
Remark Config_trusts_provider :
  exists cf a',
    Config Sample.authenticator "preauth-no-secret" = (Ok cf, a') /\
    (PreAuth.ClientSecret <$> Configuration.PreAuth cf) = Some EmptyString.
Proof. eexists _, _. split; vm_compute; reflexivity. Qed.

(** C5: under a provider that validates as the spec says, a configuration
    that decodes with pre-authorization enabled and an empty token URL,
    client id or client secret is refused: [Config] returns the
    misconfiguration error and [Validate] returns an error, and the
    authenticator is left as it was. *)
Theorem Config_rejects_blank_preauth
    decode absolute_url enabled strategy client config c pre :
  let a := {| Authenticator.c := specProvider decode absolute_url enabled strategy;
              Authenticator.client := client |} in
  decode (GetID a) config = Ok c ->
  Configuration.PreAuth c = Some pre ->
  PreAuth.Enabled pre = true ->
  PreAuth.TokenURL pre = EmptyString \/
  PreAuth.ClientID pre = EmptyString \/
  PreAuth.ClientSecret pre = EmptyString ->
  (exists err, Config a config = (Err (NewErrAuthenticatorMisconfigured a err), a)) /\
  (exists err, Validate a config = (Some err, a)).
Proof.
  intros a Hdecode Hpre Henabled Hblank.
  assert (Hvalid : validConfiguration absolute_url c = false).
  { unfold validConfiguration. rewrite Hpre, Henabled.
    apply andb_false_iff. right.
    destruct Hblank as [-> | [-> | ->]]; cbn [String.eqb negb];
      rewrite ?andb_false_r; reflexivity. }
  assert (Hconfig : Config a config
            = (Err (NewErrAuthenticatorMisconfigured a
                      (lib_err "configuration does not validate")), a)).
  { unfold Config. cbn [Authenticator.c a specProvider configuration.AuthenticatorConfig].
    fold a. rewrite Hdecode, Hvalid. reflexivity. }
  split; [eexists; exact Hconfig|].
  unfold Validate. rewrite Hconfig.
  destruct (negb _); eexists; reflexivity.
Qed.

Lemma Config_rejects_blank_preauth_witness :
  (exists err,
     Config {| Authenticator.c := Sample.validating_provider;
               Authenticator.client := NewResilientClientLatencyToleranceSmall rt_nil |}
       "preauth-no-secret"
     = (Err (ErrAuthenticatorMisconfigured "oauth2_introspection" err),
        {| Authenticator.c := Sample.validating_provider;
           Authenticator.client := NewResilientClientLatencyToleranceSmall rt_nil |})) /\
  (exists err,
     Validate {| Authenticator.c := Sample.validating_provider;
                 Authenticator.client := NewResilientClientLatencyToleranceSmall rt_nil |}
       "preauth-no-secret"
     = (Some err,
        {| Authenticator.c := Sample.validating_provider;
           Authenticator.client := NewResilientClientLatencyToleranceSmall rt_nil |})).
Proof.
  apply (Config_rejects_blank_preauth Sample.decode (String.prefix "https://")
           (fun _ => true) Sample.strategy
           (NewResilientClientLatencyToleranceSmall rt_nil) "preauth-no-secret"
           (Sample.cfg
              (Some {| PreAuth.Enabled := true; PreAuth.ClientID := "proxy";
                       PreAuth.ClientSecret := EmptyString; PreAuth.Scope := [];
                       PreAuth.TokenURL := "https://idp.example/oauth2/token" |})
              None "none")
           {| PreAuth.Enabled := true; PreAuth.ClientID := "proxy";
              PreAuth.ClientSecret := EmptyString; PreAuth.Scope := [];
              PreAuth.TokenURL := "https://idp.example/oauth2/token" |}).
  - vm_compute; reflexivity.
  - reflexivity.
  - reflexivity.
  - right; right; reflexivity.
Defined.

(** * Further properties *)

(** ** The checks, one by one *)

(** What [find] returns is the first element that satisfies the test. *)
Lemma find_first {A : Type} (f : A -> bool) (l : list A) (x : A) :
  find f l = Some x ->
  exists before after,
    l = (before ++ x :: after)%list /\
    f x = true /\
    forall y, In y before -> f y = false.
Proof.
  induction l as [|y l IH]; [discriminate|].
  cbn [find]. destruct (f y) eqn:Hy.
  - intros [= ->]. exists [], l. split; [reflexivity|].
    split; [exact Hy|]. intros z [].
  - intros Hfind. destruct (IH Hfind) as (before & after & -> & Hx & Hbefore).
    exists (y :: before), after. split; [reflexivity|]. split; [exact Hx|].
    intros z [<- | Hz]; [exact Hy|apply Hbefore, Hz].
Qed.

Lemma token_type_passes (tokenType : string) :
  tokenType = EmptyString \/ tokenType = "access_token" ->
  ((0 <? String.length tokenType)%nat
   && negb (String.eqb tokenType "access_token")) = false.
Proof. intros [-> | ->]; reflexivity. Qed.

Lemma token_type_fails (tokenType : string) :
  tokenType <> EmptyString -> tokenType <> "access_token" ->
  ((0 <? String.length tokenType)%nat
   && negb (String.eqb tokenType "access_token")) = true.
Proof.
  intros Hempty Haccess. apply String.eqb_neq in Haccess. rewrite Haccess.
  destruct tokenType; [congruence|reflexivity].
Qed.

(** X1: in a run that gets as far as the checks, [Authenticate] returns
    [nil] exactly when the result is admissible (token type empty or
    [access_token], active, every target audience among the token's, the
    issuer trusted or no issuer configured) and, when a scope strategy is
    set, every required scope passes it. *)
Theorem Authenticate_accepts_iff E a r session config cf a' introspectReq i :
  Config a config = (Ok cf, a') ->
  introspects E a' r cf introspectReq i ->
  fst (fst (Authenticate E a r session config)) = None <->
  admissible cf i /\
  forall ss, scopeStrategy a' cf = Some ss ->
    forall scope, In scope (Configuration.Scopes cf) ->
                  ss (grantedScopes i) scope = true.
Proof.
  intros Hcf Hrun.
  rewrite (Authenticate_introspects _ _ _ _ _ _ _ _ _ Hcf Hrun).
  destruct (scopeStrategy a' cf) as [ss|].
  - rewrite checkResult_strategy. fold (grantedScopes i).
    destruct (checkResult cf None i) as [err|] eqn:Hcheck.
    + split; [discriminate|]. intros [Hadm _].
      apply checkResult_None_admissible in Hadm. congruence.
    + apply checkResult_None_admissible in Hcheck.
      destruct (find _ (Configuration.Scopes cf)) as [scope|] eqn:Hfind.
      * split; [discriminate|]. intros [_ Hall].
        apply find_some in Hfind as [Hin Hfail].
        rewrite (Hall ss eq_refl scope Hin) in Hfail. discriminate.
      * split; [|reflexivity]. intros _. split; [exact Hcheck|].
        intros ss' [= <-] scope Hin.
        apply (proj1 (find_None_iff _ _) Hfind) in Hin.
        apply negb_false_iff in Hin. exact Hin.
  - destruct (checkResult cf None i) as [err|] eqn:Hcheck.
    + split; [discriminate|]. intros [Hadm _].
      apply checkResult_None_admissible in Hadm. congruence.
    + apply checkResult_None_admissible in Hcheck.
      split; [|reflexivity]. intros _. split; [exact Hcheck|discriminate].
Qed.

Lemma Authenticate_accepts_iff_witness :
  fst (fst (Authenticate Sample.env Sample.authenticator
              (Sample.request (Some "abc")) Sample.session "exact")) = None <->
  admissible (Sample.cfg None None "exact") Sample.active /\
  forall ss, scopeStrategy Sample.authenticator (Sample.cfg None None "exact") = Some ss ->
    forall scope, In scope ["read"] -> ss (grantedScopes Sample.active) scope = true.
Proof.
  apply (Authenticate_accepts_iff Sample.env Sample.authenticator
           (Sample.request (Some "abc")) Sample.session "exact"
           (Sample.cfg None None "exact") Sample.authenticator
           {| http.Method := "POST";
              http.URL := "https://idp.example/oauth2/introspect";
              http.ReqHeader :=
                {[ "Content-Type" := ["application/x-www-form-urlencoded"] ]};
              http.Form := {[ "token" := ["abc"] ]} |}
           Sample.active).
  - vm_compute; reflexivity.
  - split; [discriminate|]. split; [vm_compute; reflexivity|].
    eexists. split; [vm_compute; reflexivity|]. split; reflexivity.
Defined.

(** X2: in a run that gets as far as the checks, a token type that is
    neither empty nor [access_token] is refused as Forbidden, the error
    quoting the type, whatever the other fields of the result are, the
    active flag included. *)
Theorem Authenticate_token_type_forbidden
    E a r session config cf a' introspectReq i :
  Config a config = (Ok cf, a') ->
  introspects E a' r cf introspectReq i ->
  Result.TokenType i <> EmptyString ->
  Result.TokenType i <> "access_token" ->
  Authenticate E a r session config
  = (Some (ErrForbidden
             ("Introspected token is not an access token but "
              +:+ dquote +:+ Result.TokenType i +:+ dquote)),
     session, a').
Proof.
  intros Hcf Hrun Hempty Haccess.
  rewrite (Authenticate_introspects _ _ _ _ _ _ _ _ _ Hcf Hrun).
  unfold checkResult. rewrite (token_type_fails _ Hempty Haccess). reflexivity.
Qed.

Lemma Authenticate_token_type_forbidden_witness :
  Authenticate Sample.env Sample.authenticator (Sample.request (Some "refresh"))
    Sample.session "exact"
  = (Some (ErrForbidden
             ("Introspected token is not an access token but "
              +:+ dquote +:+ "refresh_token" +:+ dquote)),
     Sample.session, Sample.authenticator).
Proof.
  apply (Authenticate_token_type_forbidden Sample.env Sample.authenticator
           (Sample.request (Some "refresh")) Sample.session "exact"
           (Sample.cfg None None "exact") Sample.authenticator
           {| http.Method := "POST";
              http.URL := "https://idp.example/oauth2/introspect";
              http.ReqHeader :=
                {[ "Content-Type" := ["application/x-www-form-urlencoded"] ]};
              http.Form := {[ "token" := ["refresh"] ]} |}
           Sample.inactive_refresh).
  - vm_compute; reflexivity.
  - split; [discriminate|]. split; [vm_compute; reflexivity|].
    eexists. split; [vm_compute; reflexivity|]. split; reflexivity.
  - discriminate.
  - discriminate.
Defined.

(** X3: in a run that gets as far as the checks with an active token of an
    accepted type, a target audience missing from the token's audiences is
    refused as Forbidden, and the audience the error names is the first
    missing one in the order of the configuration. *)
Theorem Authenticate_audience_forbidden
    E a r session config cf a' introspectReq i :
  Config a config = (Ok cf, a') ->
  introspects E a' r cf introspectReq i ->
  Result.TokenType i = EmptyString \/ Result.TokenType i = "access_token" ->
  Result.Active i = true ->
  (exists audience, In audience (Configuration.Audience cf) /\
                    ~ In audience (Result.Audience i)) ->
  exists before audience after,
    Configuration.Audience cf = (before ++ audience :: after)%list /\
    (forall present, In present before -> In present (Result.Audience i)) /\
    ~ In audience (Result.Audience i) /\
    Authenticate E a r session config
    = (Some (ErrForbidden
               ("Token audience is not intended for target audience " +:+ audience)),
       session, a').
Proof.
  intros Hcf Hrun Htype Hactive (missing & Hin & Hmissing).
  rewrite (Authenticate_introspects _ _ _ _ _ _ _ _ _ Hcf Hrun).
  unfold checkResult. rewrite (token_type_passes _ Htype), Hactive. cbn [negb].
  destruct (find _ (Configuration.Audience cf)) as [audience|] eqn:Hfind.
  - apply find_first in Hfind as (before & after & Hsplit & Hfail & Hbefore).
    exists before, audience, after. split; [exact Hsplit|]. split; [|split].
    + intros present Hpresent. apply stringslice_Has_In.
      apply Hbefore, negb_false_iff in Hpresent. exact Hpresent.
    + intros Hhas. apply stringslice_Has_In in Hhas.
      rewrite Hhas in Hfail. discriminate.
    + reflexivity.
  - exfalso. apply Hmissing, stringslice_Has_In.
    apply (proj1 (find_None_iff _ _) Hfind), negb_false_iff in Hin. exact Hin.
Qed.

Lemma Authenticate_audience_forbidden_witness :
  exists before audience after,
    ["api"; "billing"; "ledger"] = (before ++ audience :: after)%list /\
    (forall present, In present before -> In present ["api"]) /\
    ~ In audience ["api"] /\
    Authenticate Sample.env Sample2.authenticator (Sample.request (Some "abc"))
      Sample.session "billing"
    = (Some (ErrForbidden
               ("Token audience is not intended for target audience " +:+ audience)),
       Sample.session, Sample2.authenticator).
Proof.
  apply (Authenticate_audience_forbidden Sample.env Sample2.authenticator
           (Sample.request (Some "abc")) Sample.session "billing"
           {| Configuration.Scopes := ["read"];
              Configuration.Audience := ["api"; "billing"; "ledger"];
              Configuration.Issuers := [];
              Configuration.PreAuth := None;
              Configuration.ScopeStrategy := "exact";
              Configuration.IntrospectionURL := "https://idp.example/oauth2/introspect";
              Configuration.BearerTokenLocation := None;
              Configuration.IntrospectionRequestHeaders := None;
              Configuration.Retry := None |}
           Sample2.authenticator
           {| http.Method := "POST";
              http.URL := "https://idp.example/oauth2/introspect";
              http.ReqHeader :=
                {[ "Content-Type" := ["application/x-www-form-urlencoded"] ]};
              http.Form := {[ "token" := ["abc"] ]} |}
           Sample.active).
  - vm_compute; reflexivity.
  - split; [discriminate|]. split; [vm_compute; reflexivity|].
    eexists. split; [vm_compute; reflexivity|]. split; reflexivity.
  - left; reflexivity.
  - reflexivity.
  - exists "ledger". split; [right; right; left; reflexivity|].
    intros [Heq | []]. discriminate.
Defined.

(** The witness names [billing], the first of the two audiences the token
    lacks. *)
Example Authenticate_sample_billing :
  Authenticate Sample.env Sample2.authenticator (Sample.request (Some "abc"))
    Sample.session "billing"
  = (Some (ErrForbidden "Token audience is not intended for target audience billing"),
     Sample.session, Sample2.authenticator).
Proof. vm_compute; reflexivity. Qed.

(** X4: in a run that gets as far as the checks with an active token of an
    accepted type that covers every target audience, a non-empty list of
    trusted issuers that lacks the token's issuer is refused as Forbidden;
    the scopes are not looked at. *)
Theorem Authenticate_issuer_forbidden
    E a r session config cf a' introspectReq i :
  Config a config = (Ok cf, a') ->
  introspects E a' r cf introspectReq i ->
  Result.TokenType i = EmptyString \/ Result.TokenType i = "access_token" ->
  Result.Active i = true ->
  (forall audience, In audience (Configuration.Audience cf) ->
                    In audience (Result.Audience i)) ->
  Configuration.Issuers cf <> [] ->
  ~ In (Result.Issuer i) (Configuration.Issuers cf) ->
  Authenticate E a r session config
  = (Some (ErrForbidden "Token issuer does not match any trusted issuer"),
     session, a').
Proof.
  intros Hcf Hrun Htype Hactive Haud Hsome Hissuer.
  rewrite (Authenticate_introspects _ _ _ _ _ _ _ _ _ Hcf Hrun).
  unfold checkResult. rewrite (token_type_passes _ Htype), Hactive. cbn [negb].
  assert (Hfind : find (fun audience =>
                          negb (stringslice_Has (Result.Audience i) audience))
                    (Configuration.Audience cf) = None).
  { apply find_None_iff. intros audience Hin.
    apply negb_false_iff, stringslice_Has_In, Haud, Hin. }
  rewrite Hfind.
  assert (Hhas : stringslice_Has (Configuration.Issuers cf) (Result.Issuer i) = false).
  { destruct (stringslice_Has _ _) eqn:Hhas; [|reflexivity].
    apply stringslice_Has_In in Hhas. contradiction. }
  rewrite Hhas. destruct (Configuration.Issuers cf); [congruence|reflexivity].
Qed.

Lemma Authenticate_issuer_forbidden_witness :
  Authenticate Sample.env Sample2.authenticator (Sample.request (Some "abc"))
    Sample.session "issuers"
  = (Some (ErrForbidden "Token issuer does not match any trusted issuer"),
     Sample.session, Sample2.authenticator).
Proof.
  apply (Authenticate_issuer_forbidden Sample.env Sample2.authenticator
           (Sample.request (Some "abc")) Sample.session "issuers"
           {| Configuration.Scopes := ["read"];
              Configuration.Audience := ["api"];
              Configuration.Issuers := ["https://other.example"];
              Configuration.PreAuth := None;
              Configuration.ScopeStrategy := "exact";
              Configuration.IntrospectionURL := "https://idp.example/oauth2/introspect";
              Configuration.BearerTokenLocation := None;
              Configuration.IntrospectionRequestHeaders := None;
              Configuration.Retry := None |}
           Sample2.authenticator
           {| http.Method := "POST";
              http.URL := "https://idp.example/oauth2/introspect";
              http.ReqHeader :=
                {[ "Content-Type" := ["application/x-www-form-urlencoded"] ]};
              http.Form := {[ "token" := ["abc"] ]} |}
           Sample.active).
  - vm_compute; reflexivity.
  - split; [discriminate|]. split; [vm_compute; reflexivity|].
    eexists. split; [vm_compute; reflexivity|]. split; reflexivity.
  - left; reflexivity.
  - reflexivity.
  - intros audience Hin. exact Hin.
  - discriminate.
  - intros [Heq | []]. discriminate.
Defined.

(** X5: in a run that gets as far as the checks, the only errors are
    Forbidden and Unauthorized, and the error is Unauthorized exactly when
    the token is inactive and its type is empty or [access_token]. *)
Theorem Authenticate_unauthorized_iff
    E a r session config cf a' introspectReq i err session' a'' :
  Config a config = (Ok cf, a') ->
  introspects E a' r cf introspectReq i ->
  Authenticate E a r session config = (Some err, session', a'') ->
  (isForbidden err = true \/ isUnauthorized err = true) /\
  (isUnauthorized err = true <->
   Result.Active i = false /\
   (Result.TokenType i = EmptyString \/ Result.TokenType i = "access_token")).
Proof.
  intros Hcf Hrun.
  rewrite (Authenticate_introspects _ _ _ _ _ _ _ _ _ Hcf Hrun).
  assert (Hchecks : forall ss e, checkResult cf ss i = Some e ->
            (isForbidden e = true \/ isUnauthorized e = true) /\
            (isUnauthorized e = true <->
             Result.Active i = false /\
             (Result.TokenType i = EmptyString \/
              Result.TokenType i = "access_token"))).
  { intros ss e. unfold checkResult.
    destruct (_ && negb (String.eqb _ "access_token")) eqn:Htype.
    - intros [= <-]. split; [left; reflexivity|]. split; [discriminate|].
      intros [_ Hok]. rewrite (token_type_passes _ Hok) in Htype. discriminate.
    - assert (Hok : Result.TokenType i = EmptyString \/
                    Result.TokenType i = "access_token").
      { apply andb_false_iff in Htype as [Hlen|Heq].
        - left. destruct (Result.TokenType i); [reflexivity|discriminate].
        - right. apply negb_false_iff, String.eqb_eq in Heq. exact Heq. }
      destruct (Result.Active i); cbn [negb].
      + assert (Hforbidden : forall reason,
                  (isForbidden (ErrForbidden reason) = true \/
                   isUnauthorized (ErrForbidden reason) = true) /\
                  (isUnauthorized (ErrForbidden reason) = true <->
                   true = false /\
                   (Result.TokenType i = EmptyString \/
                    Result.TokenType i = "access_token"))).
        { intros reason. split; [left; reflexivity|].
          split; [discriminate|]. intros [Habs _]. discriminate. }
        destruct (find _ (Configuration.Audience cf)); [intros [= <-]; apply Hforbidden|].
        destruct (_ && negb (stringslice_Has _ _)); [intros [= <-]; apply Hforbidden|].
        destruct ss as [ss|]; [|discriminate].
        destruct (find _ (Configuration.Scopes cf)); [|discriminate].
        intros [= <-]. apply Hforbidden.
      + intros [= <-]. split; [right; reflexivity|].
        split; [intros _; split; [reflexivity|exact Hok]|reflexivity]. }
  destruct (checkResult cf (scopeStrategy a' cf) i) as [e|] eqn:Hcheck;
    [|discriminate].
  intros [= <- _ _]. apply (Hchecks _ _ Hcheck).
Qed.

Lemma Authenticate_unauthorized_iff_witness :
  (isForbidden (ErrUnauthorized "Access token i says token is not active") = true \/
   isUnauthorized (ErrUnauthorized "Access token i says token is not active") = true) /\
  (isUnauthorized (ErrUnauthorized "Access token i says token is not active") = true <->
   Result.Active Sample.inactive = false /\
   (Result.TokenType Sample.inactive = EmptyString \/
    Result.TokenType Sample.inactive = "access_token")).
Proof.
  apply (Authenticate_unauthorized_iff Sample.env Sample.authenticator
           (Sample.request (Some "old")) Sample.session "exact"
           (Sample.cfg None None "exact") Sample.authenticator
           {| http.Method := "POST";
              http.URL := "https://idp.example/oauth2/introspect";
              http.ReqHeader :=
                {[ "Content-Type" := ["application/x-www-form-urlencoded"] ]};
              http.Form := {[ "token" := ["old"] ]} |}
           Sample.inactive
           (ErrUnauthorized "Access token i says token is not active")
           Sample.session Sample.authenticator).
  - vm_compute; reflexivity.
  - split; [discriminate|]. split; [vm_compute; reflexivity|].
    eexists. split; [vm_compute; reflexivity|]. split; reflexivity.
  - vm_compute; reflexivity.
Defined.



(** ** Failures before the checks *)

(** X7: once the configuration resolves and the request carries a token,
    [Authenticate] returns as it comes the error of building the request,
    of sending it, and of decoding the answer; an answer with a status
    other than 200 is an error that reports the status, whatever its body;
    and in all four cases the session is left as it was. *)
Theorem Authenticate_failures_before_checks E a r session config cf a' :
  Config a config = (Ok cf, a') ->
  requestToken E r cf <> EmptyString ->
  (forall err,
     introspectionRequest E cf
       (introspectionBody (requestToken E r cf) (scopeStrategy a' cf)
          (Configuration.Scopes cf)) = Err err ->
     Authenticate E a r session config = (Some err, session, a')) /\
  (forall introspectReq,
     introspectionRequest E cf
       (introspectionBody (requestToken E r cf) (scopeStrategy a' cf)
          (Configuration.Scopes cf)) = Ok introspectReq ->
     (forall err,
        Do E (Authenticator.client a') introspectReq = Err err ->
        Authenticate E a r session config = (Some err, session, a')) /\
     (forall resp,
        Do E (Authenticator.client a') introspectReq = Ok resp ->
        (http.StatusCode resp <> http.StatusOK ->
         Authenticate E a r session config
         = (Some (Errorf_status (http.StatusCode resp) http.StatusOK),
            session, a')) /\
        (forall err,
           http.StatusCode resp = http.StatusOK ->
           Decode E (http.Body resp) = Err err ->
           Authenticate E a r session config = (Some err, session, a')))).
Proof.
  intros Hcf Htoken. unfold requestToken, scopeStrategy in *.
  apply String.eqb_neq in Htoken.
  split.
  - intros err Hreq. unfold Authenticate. rewrite Hcf, Htoken, Hreq. reflexivity.
  - intros introspectReq Hreq. split.
    + intros err Hdo. unfold Authenticate.
      rewrite Hcf, Htoken, Hreq, Hdo. reflexivity.
    + intros resp Hdo. split.
      * intros Hstatus. apply Z.eqb_neq in Hstatus. unfold Authenticate.
        rewrite Hcf, Htoken, Hreq, Hdo, Hstatus. reflexivity.
      * intros err Hstatus Hdecode. unfold Authenticate.
        rewrite Hcf, Htoken, Hreq, Hdo, Hstatus, Hdecode. reflexivity.
Qed.

Lemma Authenticate_failures_before_checks_witness :
  Authenticate Sample.env Sample.authenticator (Sample.request (Some "down"))
    Sample.session "exact"
  = (Some (lib_err "connection refused"), Sample.session, Sample.authenticator) /\
  Authenticate Sample.env Sample.authenticator (Sample.request (Some "broken"))
    Sample.session "exact"
  = (Some (Errorf_status 500 200), Sample.session, Sample.authenticator) /\
  Authenticate Sample.env Sample.authenticator (Sample.request (Some "garbage"))
    Sample.session "exact"
  = (Some (lib_err "invalid character"), Sample.session, Sample.authenticator).
Proof.
  split; [|split].
  - destruct (Authenticate_failures_before_checks Sample.env Sample.authenticator
                (Sample.request (Some "down")) Sample.session "exact"
                (Sample.cfg None None "exact") Sample.authenticator)
      as [_ Hsent].
    + vm_compute; reflexivity.
    + discriminate.
    + destruct (Hsent {| http.Method := "POST";
                         http.URL := "https://idp.example/oauth2/introspect";
                         http.ReqHeader :=
                           {[ "Content-Type" := ["application/x-www-form-urlencoded"] ]};
                         http.Form := {[ "token" := ["down"] ]} |})
        as [Hdo _]; [vm_compute; reflexivity|].
      apply Hdo. vm_compute; reflexivity.
  - destruct (Authenticate_failures_before_checks Sample.env Sample.authenticator
                (Sample.request (Some "broken")) Sample.session "exact"
                (Sample.cfg None None "exact") Sample.authenticator)
      as [_ Hsent].
    + vm_compute; reflexivity.
    + discriminate.
    + destruct (Hsent {| http.Method := "POST";
                         http.URL := "https://idp.example/oauth2/introspect";
                         http.ReqHeader :=
                           {[ "Content-Type" := ["application/x-www-form-urlencoded"] ]};
                         http.Form := {[ "token" := ["broken"] ]} |})
        as [_ Hanswer]; [vm_compute; reflexivity|].
      destruct (Hanswer {| http.StatusCode := 500; http.Body := EmptyString |})
        as [Hstatus _]; [vm_compute; reflexivity|].
      apply Hstatus. discriminate.
  - destruct (Authenticate_failures_before_checks Sample.env Sample.authenticator
                (Sample.request (Some "garbage")) Sample.session "exact"
                (Sample.cfg None None "exact") Sample.authenticator)
      as [_ Hsent].
    + vm_compute; reflexivity.
    + discriminate.
    + destruct (Hsent {| http.Method := "POST";
                         http.URL := "https://idp.example/oauth2/introspect";
                         http.ReqHeader :=
                           {[ "Content-Type" := ["application/x-www-form-urlencoded"] ]};
                         http.Form := {[ "token" := ["garbage"] ]} |})
        as [_ Hanswer]; [vm_compute; reflexivity|].
      destruct (Hanswer {| http.StatusCode := 200; http.Body := "garbage" |})
        as [_ Hdecode]; [vm_compute; reflexivity|].
      apply Hdecode; [reflexivity|vm_compute; reflexivity].
Defined.

(** ** The introspection request *)

(** Setting the configured headers touches nothing but the headers; it
    leaves alone every header name that no configured key canonicalises
    to, and gives its value to every configured key whose canonical name
    no other configured key shares. *)
Lemma configured_headers E (req0 : http.Request) (headers : gmap string string) :
  let req := map_fold (fun key value req => Header_Set E req key value) req0 headers in
  http.Method req = http.Method req0 /\
  http.URL req = http.URL req0 /\
  http.Form req = http.Form req0 /\
  (forall name,
     (forall key, is_Some (headers !! key) -> CanonicalMIMEHeaderKey E key <> name) ->
     http.ReqHeader req !! name = http.ReqHeader req0 !! name) /\
  (forall key value,
     headers !! key = Some value ->
     (forall other, is_Some (headers !! other) -> other <> key ->
        CanonicalMIMEHeaderKey E other <> CanonicalMIMEHeaderKey E key) ->
     http.ReqHeader req !! CanonicalMIMEHeaderKey E key = Some [value]).
Proof.
  cbv zeta.
  apply (map_fold_weak_ind
           (fun req (headers : gmap string string) =>
              http.Method req = http.Method req0 /\
              http.URL req = http.URL req0 /\
              http.Form req = http.Form req0 /\
              (forall name,
                 (forall key, is_Some (headers !! key) ->
                              CanonicalMIMEHeaderKey E key <> name) ->
                 http.ReqHeader req !! name = http.ReqHeader req0 !! name) /\
              (forall key value,
                 headers !! key = Some value ->
                 (forall other, is_Some (headers !! other) -> other <> key ->
                    CanonicalMIMEHeaderKey E other <> CanonicalMIMEHeaderKey E key) ->
                 http.ReqHeader req !! CanonicalMIMEHeaderKey E key = Some [value]))).
  - repeat split; try reflexivity. intros key value Hkey.
    rewrite lookup_empty in Hkey. discriminate.
  - intros key value m req Hfresh (Hmethod & Hurl & Hform & Hother & Hset).
    cbn [Header_Set http.Method http.URL http.Form http.ReqHeader].
    split; [exact Hmethod|]. split; [exact Hurl|]. split; [exact Hform|]. split.
    + intros name Hname. rewrite lookup_insert_ne.
      * apply Hother. intros key' Hkey'. apply Hname.
        destruct (decide (key = key')) as [<- | Hne].
        -- rewrite lookup_insert_eq. eauto.
        -- rewrite lookup_insert_ne by exact Hne. exact Hkey'.
      * apply Hname. rewrite lookup_insert_eq. eauto.
    + intros key' value' Hkey' Hdistinct.
      destruct (decide (key = key')) as [<- | Hne].
      * rewrite lookup_insert_eq in Hkey'. injection Hkey' as <-.
        apply lookup_insert_eq.
      * rewrite lookup_insert_ne in Hkey' by exact Hne.
        rewrite lookup_insert_ne.
        -- apply (Hset key' value' Hkey'). intros other Hsome Hother'.
           apply Hdistinct; [|exact Hother'].
           destruct (decide (key = other)) as [<- | Hne'].
           ++ rewrite lookup_insert_eq. eauto.
           ++ rewrite lookup_insert_ne by exact Hne'. exact Hsome.
        -- apply Hdistinct; [rewrite lookup_insert_eq; eauto|exact Hne].
Qed.

(** X8: the introspection request is built exactly when the introspection
    URL parses.  It is then a POST to that URL whose form holds the token
    under [token] and nothing under any name other than [token] and
    [scope]; its [Content-Type] is the form encoding whatever the
    configured headers say, and it carries no header that is neither
    [Content-Type] nor the canonical name of a configured key. *)
Theorem introspection_request_shape E cf token ss :
  (forall err,
     introspectionRequest E cf (introspectionBody token ss (Configuration.Scopes cf))
     = Err err <->
     url_Parse E (Configuration.IntrospectionURL cf) = Some err) /\
  (forall introspectReq,
     introspectionRequest E cf (introspectionBody token ss (Configuration.Scopes cf))
     = Ok introspectReq ->
     url_Parse E (Configuration.IntrospectionURL cf) = None /\
     http.Method introspectReq = "POST" /\
     http.URL introspectReq = Configuration.IntrospectionURL cf /\
     http.Form introspectReq !! "token" = Some [token] /\
     (forall name, name <> "token" -> name <> "scope" ->
                   http.Form introspectReq !! name = None) /\
     http.ReqHeader introspectReq !! CanonicalMIMEHeaderKey E "Content-Type"
     = Some ["application/x-www-form-urlencoded"] /\
     (forall name,
        name <> CanonicalMIMEHeaderKey E "Content-Type" ->
        (forall key,
           is_Some (default ∅ (Configuration.IntrospectionRequestHeaders cf) !! key) ->
           CanonicalMIMEHeaderKey E key <> name) ->
        http.ReqHeader introspectReq !! name = None)).
Proof.
  unfold introspectionRequest, NewRequest.
  destruct (url_Parse E (Configuration.IntrospectionURL cf)) as [perr|].
  - split; [|discriminate]. intros err. split; intros [= <-]; reflexivity.
  - split; [intros err; split; discriminate|].
    intros introspectReq [= <-].
    pose proof (configured_headers E
                  {| http.Method := http.MethodPost;
                     http.URL := Configuration.IntrospectionURL cf;
                     http.ReqHeader := ∅;
                     http.Form :=
                       introspectionBody token ss (Configuration.Scopes cf) |}
                  (default ∅ (Configuration.IntrospectionRequestHeaders cf)))
      as (Hmethod & Hurl & Hform & Hother & _).
    cbv zeta in *.
    cbn [Header_Set http.Method http.URL http.Form http.ReqHeader] in *.
    split; [reflexivity|]. split; [exact Hmethod|]. split; [exact Hurl|].
    rewrite Hform. split; [|split; [|split]].
    + unfold introspectionBody, Values_Add. destruct ss.
      * apply lookup_singleton_eq.
      * rewrite lookup_insert_ne by discriminate. apply lookup_singleton_eq.
    + intros name Htoken Hscope. unfold introspectionBody, Values_Add.
      destruct ss.
      * apply lookup_singleton_ne. congruence.
      * rewrite lookup_insert_ne by congruence.
        apply lookup_singleton_ne. congruence.
    + apply lookup_insert_eq.
    + intros name Hct Hname. rewrite lookup_insert_ne by congruence.
      rewrite (Hother name Hname). apply lookup_empty.
Qed.



(** The configured [Content-Type] of the sample does not survive. *)
Example introspection_request_sample_headers :
  exists introspectReq,
    introspectionRequest Sample.env
      {| Configuration.Scopes := [];
         Configuration.Audience := [];
         Configuration.Issuers := [];
         Configuration.PreAuth := None;
         Configuration.ScopeStrategy := "none";
         Configuration.IntrospectionURL := "https://idp.example/oauth2/introspect";
         Configuration.BearerTokenLocation := None;
         Configuration.IntrospectionRequestHeaders :=
           Some {[ "Content-Type" := "application/json"; "X-Tenant" := "t1" ]};
         Configuration.Retry := None |}
      (introspectionBody "abc" None []) = Ok introspectReq /\
    http.ReqHeader introspectReq !! "Content-Type"
    = Some ["application/x-www-form-urlencoded"] /\
    http.ReqHeader introspectReq !! "X-Tenant" = Some ["t1"] /\
    http.Form introspectReq !! "scope" = Some [EmptyString].
Proof. eexists. split; [vm_compute; reflexivity|]. repeat split. Qed.

(** ** [Config], call after call *)

(** The four ways through [Config]. *)
Lemma Config_cases a config :
  (exists err,
     configuration.AuthenticatorConfig (Authenticator.c a) (GetID a) config = Err err /\
     Config a config = (Err (NewErrAuthenticatorMisconfigured a err), a))
  \/
  (exists c,
     configuration.AuthenticatorConfig (Authenticator.c a) (GetID a) config = Ok c /\
     preAuthOff c /\
     Config a config = (Ok c, a))
  \/
  (exists c pre e,
     configuration.AuthenticatorConfig (Authenticator.c a) (GetID a) config = Ok c /\
     Configuration.PreAuth c = Some pre /\ PreAuth.Enabled pre = true /\
     (time.ParseDuration (Retry.Timeout (default_Retry (Configuration.Retry c))) = inl e
      \/ ((exists d, time.ParseDuration
                       (Retry.Timeout (default_Retry (Configuration.Retry c))) = inr d) /\
          time.ParseDuration
            (Retry.MaxWait (default_Retry (Configuration.Retry c))) = inl e)) /\
     Config a config = (Err (time_err e), a))
  \/
  (exists c pre d w,
     configuration.AuthenticatorConfig (Authenticator.c a) (GetID a) config = Ok c /\
     Configuration.PreAuth c = Some pre /\ PreAuth.Enabled pre = true /\
     time.ParseDuration (Retry.Timeout (default_Retry (Configuration.Retry c))) = inr d /\
     time.ParseDuration (Retry.MaxWait (default_Retry (Configuration.Retry c))) = inr w /\
     Config a config
     = (Ok (Configuration.set_Retry c (Some (default_Retry (Configuration.Retry c)))),
        {| Authenticator.c := Authenticator.c a;
           Authenticator.client :=
             NewResilientClientLatencyToleranceConfigurable
               (rt_clientcredentials
                  {| clientcredentials.ClientID := PreAuth.ClientID pre;
                     clientcredentials.ClientSecret := PreAuth.ClientSecret pre;
                     clientcredentials.Scopes := PreAuth.Scope pre;
                     clientcredentials.TokenURL := PreAuth.TokenURL pre |})
               (time.mul time.Millisecond d) w |})).
Proof.
  unfold preAuthOff.
  destruct (configuration.AuthenticatorConfig (Authenticator.c a) (GetID a) config)
    as [c|err] eqn:Hp.
  2: { left. exists err. split; [reflexivity|].
       unfold Config. rewrite Hp. reflexivity. }
  right.
  destruct (Configuration.PreAuth c) as [pre|] eqn:Hpre.
  2: { left. exists c. split; [reflexivity|]. split; [left; exact Hpre|].
       unfold Config. rewrite Hp, Hpre. reflexivity. }
  destruct (PreAuth.Enabled pre) eqn:Henabled.
  2: { left. exists c. split; [reflexivity|].
       split; [right; exists pre; split; [exact Hpre|exact Henabled]|].
       unfold Config. rewrite Hp, Hpre, Henabled. reflexivity. }
  right.
  destruct (time.ParseDuration (Retry.Timeout (default_Retry (Configuration.Retry c))))
    as [e|d] eqn:Htimeout.
  { left. exists c, pre, e. split; [reflexivity|]. split; [exact Hpre|].
    split; [exact Henabled|]. split; [left; exact Htimeout|].
    unfold Config. rewrite Hp, Hpre, Henabled, Htimeout. reflexivity. }
  destruct (time.ParseDuration (Retry.MaxWait (default_Retry (Configuration.Retry c))))
    as [e|w] eqn:Hwait.
  { left. exists c, pre, e. split; [reflexivity|]. split; [exact Hpre|].
    split; [exact Henabled|].
    split; [right; split; [exists d; exact Htimeout|exact Hwait]|].
    unfold Config. rewrite Hp, Hpre, Henabled, Htimeout, Hwait. reflexivity. }
  right. exists c, pre, d, w. split; [reflexivity|]. split; [exact Hpre|].
  split; [exact Henabled|]. split; [exact Htimeout|]. split; [exact Hwait|].
  unfold Config. rewrite Hp, Hpre, Henabled, Htimeout, Hwait. reflexivity.
Qed.

Lemma installs_or_not a config :
  (installs a config /\
   exists client,
     forall a2, Authenticator.c a2 = Authenticator.c a ->
       installs a2 config /\
       snd (Config a2 config)
       = {| Authenticator.c := Authenticator.c a; Authenticator.client := client |})
  \/
  (~ installs a config /\
   forall a2, Authenticator.c a2 = Authenticator.c a ->
     ~ installs a2 config /\ snd (Config a2 config) = a2).
Proof.
  assert (Hoff : forall a2 c, preAuthOff c -> Config a2 config = (Ok c, a2) ->
                              ~ installs a2 config).
  { intros a2 c Hc Hconfig (cf & a' & pre & Hcf & Hpre & Henabled).
    rewrite Hconfig in Hcf. injection Hcf as <- <-.
    destruct Hc as [Hnone | (pre' & Hsome & Hdisabled)]; congruence. }
  destruct (Config_cases a config)
    as [(err & Hp & _) | [(c & Hp & Hc & _) | [(c & pre & e & Hp & Hpre & Hen & Hbad & _)
        | (c & pre & d & w & Hp & Hpre & Hen & Hd & Hw & Hconfig)]]].
  - right. assert (Hall : forall a2, Authenticator.c a2 = Authenticator.c a ->
                     ~ installs a2 config /\ snd (Config a2 config) = a2).
    { intros a2 Hsame. unfold installs, Config. rewrite Hsame.
      change (GetID a2) with (GetID a). rewrite Hp.
      split; [|reflexivity]. intros (cf & a' & pre & Hcf & _). discriminate. }
    split; [apply (Hall a eq_refl)|exact Hall].
  - right. assert (Hall : forall a2, Authenticator.c a2 = Authenticator.c a ->
                     ~ installs a2 config /\ snd (Config a2 config) = a2).
    { intros a2 Hsame.
      assert (Hconfig : Config a2 config = (Ok c, a2)).
      { unfold Config. rewrite Hsame. change (GetID a2) with (GetID a). rewrite Hp.
        destruct Hc as [-> | (pre & -> & ->)]; reflexivity. }
      split; [apply (Hoff a2 c Hc Hconfig)|rewrite Hconfig; reflexivity]. }
    split; [apply (Hall a eq_refl)|exact Hall].
  - right. assert (Hall : forall a2, Authenticator.c a2 = Authenticator.c a ->
                     ~ installs a2 config /\ snd (Config a2 config) = a2).
    { intros a2 Hsame.
      assert (Hconfig : Config a2 config = (Err (time_err e), a2)).
      { unfold Config. rewrite Hsame. change (GetID a2) with (GetID a).
        rewrite Hp, Hpre, Hen.
        destruct Hbad as [-> | [[d' ->] ->]]; reflexivity. }
      split; [|rewrite Hconfig; reflexivity].
      intros (cf & a' & pre' & Hcf & _). rewrite Hconfig in Hcf. discriminate. }
    split; [apply (Hall a eq_refl)|exact Hall].
  - left. split.
    + eexists _, _, pre. split; [exact Hconfig|].
      cbn [Configuration.set_Retry Configuration.PreAuth]. auto.
    + eexists. intros a2 Hsame.
      assert (Hconfig2 : Config a2 config
                = (Ok (Configuration.set_Retry c
                         (Some (default_Retry (Configuration.Retry c)))),
                   {| Authenticator.c := Authenticator.c a;
                      Authenticator.client :=
                        NewResilientClientLatencyToleranceConfigurable
                          (rt_clientcredentials
                             {| clientcredentials.ClientID := PreAuth.ClientID pre;
                                clientcredentials.ClientSecret := PreAuth.ClientSecret pre;
                                clientcredentials.Scopes := PreAuth.Scope pre;
                                clientcredentials.TokenURL := PreAuth.TokenURL pre |})
                          (time.mul time.Millisecond d) w |})).
      { unfold Config. rewrite Hsame. change (GetID a2) with (GetID a).
        rewrite Hp, Hpre, Hen, Hd, Hw. reflexivity. }
      split; [|rewrite Hconfig2; reflexivity].
      eexists _, _, pre. split; [exact Hconfig2|].
      cbn [Configuration.set_Retry Configuration.PreAuth]. auto.
Qed.

Lemma Config_provider a config :
  Authenticator.c (snd (Config a config)) = Authenticator.c a.
Proof.
  destruct (installs_or_not a config) as [[_ [client Hall]] | [_ Hall]];
    destruct (Hall a eq_refl) as [_ ->]; reflexivity.
Qed.


Lemma Configs_provider configs : forall a,
  Authenticator.c (Configs a configs) = Authenticator.c a.
Proof.
  induction configs as [|config configs IH]; intros a; [reflexivity|].
  cbn [Configs fold_left]. fold (Configs (snd (Config a config)) configs).
  rewrite IH. apply Config_provider.
Qed.

Lemma Configs_none_installs configs : forall a,
  (forall config, In config configs -> ~ installs a config) ->
  Configs a configs = a.
Proof.
  induction configs as [|config configs IH]; intros a Hnone; [reflexivity|].
  cbn [Configs fold_left]. fold (Configs (snd (Config a config)) configs).
  destruct (installs_or_not a config) as [[Hyes _] | [_ Hall]].
  - exfalso. apply (Hnone config); [left; reflexivity|exact Hyes].
  - destruct (Hall a eq_refl) as [_ ->]. apply IH.
    intros config' Hin. apply Hnone. right. exact Hin.
Qed.

(** X11: over any run of calls to [Config], the provider of the
    authenticator never changes; if no raw configuration of the run
    resolves with pre-authorization enabled, the authenticator ends as it
    began; and otherwise it ends as the last such configuration leaves it,
    whatever came before and whatever configurations without
    pre-authorization, or failing ones, come after. *)
Theorem Configs_last_installs a :
  (forall configs, Authenticator.c (Configs a configs) = Authenticator.c a) /\
  (forall configs,
     (forall config, In config configs -> ~ installs a config) ->
     Configs a configs = a) /\
  (forall before config after,
     installs a config ->
     (forall later, In later after -> ~ installs a later) ->
     Configs a (before ++ config :: after) = snd (Config a config)).
Proof.
  split; [intros configs; apply Configs_provider|].
  split; [intros configs; apply Configs_none_installs|].
  intros before config after Hinstalls Hafter.
  unfold Configs. rewrite fold_left_app. cbn [fold_left].
  fold (Configs a before).
  fold (Configs (snd (Config (Configs a before) config)) after).
  pose proof (Configs_provider before a) as Hsame.
  destruct (installs_or_not a config) as [[_ [client Hall]] | [Hnot _]];
    [|contradiction].
  destruct (Hall _ Hsame) as [_ ->]. destruct (Hall a eq_refl) as [_ ->].
  apply Configs_none_installs. intros later Hin Hlater.
  apply (Hafter later Hin).
  destruct (installs_or_not a later) as [[Hyes _] | [_ Hnone]]; [exact Hyes|].
  exfalso.
  apply (proj1 (Hnone {| Authenticator.c := Authenticator.c a;
                         Authenticator.client := client |} eq_refl)).
  exact Hlater.
Qed.

(** A request under a configuration without pre-authorization, served
    after one with it, finds the pre-authorized client still in place. *)
Example Configs_sample_stale_client :
  Authenticator.client
    (Configs Sample.authenticator ["plain"; "preauth"; "{"; "plain"; "exact"])
  = NewResilientClientLatencyToleranceConfigurable
      (rt_clientcredentials
         {| clientcredentials.ClientID := "proxy";
            clientcredentials.ClientSecret := "secret";
            clientcredentials.Scopes := ["introspect"];
            clientcredentials.TokenURL := "https://idp.example/oauth2/token" |})
      (500000 * time.Second) time.Second.
Proof. vm_compute; reflexivity. Qed.

(** ** What [Config] accepts and what it resolves *)

(** X12: [Config] succeeds exactly when the provider accepts the raw
    configuration and either pre-authorization is absent or disabled, or
    both retry durations, blanks filled in, parse. *)
Theorem Config_succeeds_iff a config :
  (exists cf a', Config a config = (Ok cf, a')) <->
  exists c,
    configuration.AuthenticatorConfig (Authenticator.c a) (GetID a) config = Ok c /\
    (preAuthOff c \/
     exists d w,
       time.ParseDuration (Retry.Timeout (default_Retry (Configuration.Retry c))) = inr d /\
       time.ParseDuration (Retry.MaxWait (default_Retry (Configuration.Retry c))) = inr w).
Proof.
  destruct (Config_cases a config)
    as [(err & Hp & Hconfig) | [(c & Hp & Hc & Hconfig)
        | [(c & pre & e & Hp & Hpre & Hen & Hbad & Hconfig)
        | (c & pre & d & w & Hp & Hpre & Hen & Hd & Hw & Hconfig)]]];
    rewrite Hconfig, Hp.
  - split; [intros (cf & a' & [=])|intros (c & [=] & _)].
  - split; [intros _; exists c; split; [reflexivity|left; exact Hc]|eauto].
  - split; [intros (cf & a' & [=])|].
    intros (c' & [= <-] & [[Hnone | (pre' & Hsome & Hdis)] | (d & w & Hd & Hw)]);
      [congruence|congruence|].
    destruct Hbad as [Hbad | [_ Hbad]]; congruence.
  - split; [|eauto]. intros _. exists c. split; [reflexivity|].
    right. exists d, w. split; assumption.
Qed.

(** X13: when the provider accepts a configuration whose
    pre-authorization is absent or disabled, [Config] returns it as the
    provider decoded it and leaves the authenticator alone: the retry
    block is neither filled in nor parsed, so that durations that would
    not parse go unnoticed. *)
Theorem Config_preauth_off a config c :
  configuration.AuthenticatorConfig (Authenticator.c a) (GetID a) config = Ok c ->
  preAuthOff c ->
  Config a config = (Ok c, a).
Proof.
  intros Hp [Hnone | (pre & Hsome & Hdisabled)]; unfold Config; rewrite Hp.
  - rewrite Hnone. reflexivity.
  - rewrite Hsome, Hdisabled. reflexivity.
Qed.

Lemma Config_preauth_off_witness :
  time.ParseDuration "soon" = inl (time_invalid_duration "soon") /\
  Config Sample2.authenticator "disabled-bad-retry"
  = (Ok (Sample.cfg
           (Some {| PreAuth.Enabled := false; PreAuth.ClientID := EmptyString;
                    PreAuth.ClientSecret := EmptyString; PreAuth.Scope := [];
                    PreAuth.TokenURL := EmptyString |})
           (Some {| Retry.Timeout := "soon"; Retry.MaxWait := EmptyString |})
           "none"),
     Sample2.authenticator).
Proof.
  split; [vm_compute; reflexivity|].
  apply (Config_preauth_off Sample2.authenticator "disabled-bad-retry").
  - vm_compute; reflexivity.
  - right. eexists. split; reflexivity.
Defined.

(** X14: when [Config] succeeds with pre-authorization enabled, the
    configuration it returns is the decoded one with only the retry block
    replaced; in that block a field the configuration gave is kept, a
    blank or missing delay becomes ["500ms"], a blank or missing maximum
    wait becomes ["1s"], and neither field is left empty. *)
Theorem Config_resolved_retry a config c pre cf a' :
  configuration.AuthenticatorConfig (Authenticator.c a) (GetID a) config = Ok c ->
  Configuration.PreAuth c = Some pre ->
  PreAuth.Enabled pre = true ->
  Config a config = (Ok cf, a') ->
  exists retry,
    cf = Configuration.set_Retry c (Some retry) /\
    Retry.Timeout retry <> EmptyString /\
    Retry.MaxWait retry <> EmptyString /\
    (Configuration.Retry c = None ->
     Retry.Timeout retry = "500ms" /\ Retry.MaxWait retry = "1s") /\
    (forall given, Configuration.Retry c = Some given ->
       (Retry.Timeout given = EmptyString -> Retry.Timeout retry = "500ms") /\
       (Retry.Timeout given <> EmptyString ->
        Retry.Timeout retry = Retry.Timeout given) /\
       (Retry.MaxWait given = EmptyString -> Retry.MaxWait retry = "1s") /\
       (Retry.MaxWait given <> EmptyString ->
        Retry.MaxWait retry = Retry.MaxWait given)).
Proof.
  intros Hp Hpre Hen Hconfig.
  exists (default_Retry (Configuration.Retry c)). split.
  - unfold Config in Hconfig. rewrite Hp, Hpre, Hen in Hconfig.
    destruct (time.ParseDuration (Retry.Timeout _)); [discriminate|].
    destruct (time.ParseDuration (Retry.MaxWait _)); [discriminate|].
    injection Hconfig as <- _. reflexivity.
  - unfold default_Retry. destruct (Configuration.Retry c) as [given|].
    + cbn [Retry.Timeout Retry.MaxWait].
      destruct (String.eqb (Retry.Timeout given) EmptyString) eqn:Ht;
        destruct (String.eqb (Retry.MaxWait given) EmptyString) eqn:Hw;
        rewrite ?String.eqb_eq, ?String.eqb_neq in *;
        (split; [congruence|]); (split; [congruence|]);
        (split; [discriminate|]); intros given' [= <-];
        repeat split; congruence.
    + cbn [Retry.Timeout Retry.MaxWait].
      split; [discriminate|]. split; [discriminate|].
      split; [intros _; split; reflexivity|discriminate].
Qed.

Lemma Config_resolved_retry_witness :
  exists retry,
    Configuration.set_Retry
      (Sample.cfg (Some Sample.pre)
         (Some {| Retry.Timeout := EmptyString; Retry.MaxWait := "2s" |}) "none")
      (Some {| Retry.Timeout := "500ms"; Retry.MaxWait := "2s" |})
    = Configuration.set_Retry
        (Sample.cfg (Some Sample.pre)
           (Some {| Retry.Timeout := EmptyString; Retry.MaxWait := "2s" |}) "none")
        (Some retry) /\
    Retry.Timeout retry <> EmptyString /\
    Retry.MaxWait retry <> EmptyString /\
    (Some {| Retry.Timeout := EmptyString; Retry.MaxWait := "2s" |} = None ->
     Retry.Timeout retry = "500ms" /\ Retry.MaxWait retry = "1s") /\
    (forall given,
       Some {| Retry.Timeout := EmptyString; Retry.MaxWait := "2s" |} = Some given ->
       (Retry.Timeout given = EmptyString -> Retry.Timeout retry = "500ms") /\
       (Retry.Timeout given <> EmptyString ->
        Retry.Timeout retry = Retry.Timeout given) /\
       (Retry.MaxWait given = EmptyString -> Retry.MaxWait retry = "1s") /\
       (Retry.MaxWait given <> EmptyString ->
        Retry.MaxWait retry = Retry.MaxWait given)).
Proof.
  apply (Config_resolved_retry Sample2.authenticator "half-retry"
           (Sample.cfg (Some Sample.pre)
              (Some {| Retry.Timeout := EmptyString; Retry.MaxWait := "2s" |}) "none")
           Sample.pre
           (Configuration.set_Retry
              (Sample.cfg (Some Sample.pre)
                 (Some {| Retry.Timeout := EmptyString; Retry.MaxWait := "2s" |}) "none")
              (Some {| Retry.Timeout := "500ms"; Retry.MaxWait := "2s" |}))
           {| Authenticator.c := Sample2.provider;
              Authenticator.client :=
                NewResilientClientLatencyToleranceConfigurable
                  (rt_clientcredentials
                     {| clientcredentials.ClientID := "proxy";
                        clientcredentials.ClientSecret := "secret";
                        clientcredentials.Scopes := ["introspect"];
                        clientcredentials.TokenURL := "https://idp.example/oauth2/token" |})
                  (500000 * time.Second) (2 * time.Second) |}).
  - vm_compute; reflexivity.
  - reflexivity.
  - reflexivity.
  - vm_compute; reflexivity.
Defined.

(** X15: when [Config] succeeds with pre-authorization enabled, the
    resilient client it stores gets the parsed maximum wait as it is, and
    as its delay the parsed delay multiplied by [time.Millisecond] in
    64-bit arithmetic: a million times the configured delay as long as
    that fits, which is up to 9223372036854 ns (some 2h33m), and a negative
    duration for the delays from there up to 18446744073709 ns. *)
Theorem Config_client_durations a config cf a' pre :
  Config a config = (Ok cf, a') ->
  Configuration.PreAuth cf = Some pre ->
  PreAuth.Enabled pre = true ->
  exists retry d w rt timeout,
    Configuration.Retry cf = Some retry /\
    time.ParseDuration (Retry.Timeout retry) = inr d /\
    time.ParseDuration (Retry.MaxWait retry) = inr w /\
    Authenticator.client a'
    = NewResilientClientLatencyToleranceConfigurable rt timeout w /\
    (- 9223372036854 <= d <= 9223372036854 -> timeout = 1000000 * d) /\
    (9223372036855 <= d <= 18446744073709 ->
     timeout = 1000000 * d - 2 ^ 64 /\ timeout < 0).
Proof.
  intros Hconfig Hpre Hen.
  destruct (Config_cases a config)
    as [(err & Hp & Hconfig') | [(c & Hp & Hc & Hconfig')
        | [(c & pre' & e & Hp & Hpre' & Hen' & Hbad & Hconfig')
        | (c & pre' & d & w & Hp & Hpre' & Hen' & Hd & Hw & Hconfig')]]];
    rewrite Hconfig' in Hconfig; [discriminate| |discriminate|].
  - injection Hconfig as <- <-.
    destruct Hc as [Hnone | (pre' & Hsome & Hdis)]; congruence.
  - injection Hconfig as <- <-.
    eexists _, d, w, _, _. split; [reflexivity|].
    cbn [Retry.Timeout Retry.MaxWait Authenticator.client].
    split; [exact Hd|]. split; [exact Hw|]. split; [reflexivity|].
    unfold time.mul, time.Millisecond, time.Microsecond, time.Nanosecond, i64.
    change (1000 * (1000 * 1)) with 1000000.
    split; intros Hrange.
    + rewrite Z.mod_small by lia. lia.
    + replace (1000000 * d + 2 ^ 63) with ((1000000 * d - 2 ^ 63) + 1 * 2 ^ 64) by lia.
      rewrite Z.mod_add by lia. rewrite Z.mod_small by lia. lia.
Qed.

Lemma Config_client_durations_witness :
  exists retry d w rt timeout,
    Some {| Retry.Timeout := "3h"; Retry.MaxWait := "4h" |} = Some retry /\
    time.ParseDuration (Retry.Timeout retry) = inr d /\
    time.ParseDuration (Retry.MaxWait retry) = inr w /\
    NewResilientClientLatencyToleranceConfigurable
      (rt_clientcredentials
         {| clientcredentials.ClientID := "proxy";
            clientcredentials.ClientSecret := "secret";
            clientcredentials.Scopes := ["introspect"];
            clientcredentials.TokenURL := "https://idp.example/oauth2/token" |})
      (-7646744073709551616) (4 * time.Hour)
    = NewResilientClientLatencyToleranceConfigurable rt timeout w /\
    (- 9223372036854 <= d <= 9223372036854 -> timeout = 1000000 * d) /\
    (9223372036855 <= d <= 18446744073709 ->
     timeout = 1000000 * d - 2 ^ 64 /\ timeout < 0).
Proof.
  apply (Config_client_durations Sample2.authenticator "slow"
           (Configuration.set_Retry
              (Sample.cfg (Some Sample.pre)
                 (Some {| Retry.Timeout := "3h"; Retry.MaxWait := "4h" |}) "none")
              (Some {| Retry.Timeout := "3h"; Retry.MaxWait := "4h" |}))
           {| Authenticator.c := Sample2.provider;
              Authenticator.client :=
                NewResilientClientLatencyToleranceConfigurable
                  (rt_clientcredentials
                     {| clientcredentials.ClientID := "proxy";
                        clientcredentials.ClientSecret := "secret";
                        clientcredentials.Scopes := ["introspect"];
                        clientcredentials.TokenURL := "https://idp.example/oauth2/token" |})
                  (-7646744073709551616) (4 * time.Hour) |}
           Sample.pre).
  - vm_compute; reflexivity.
  - reflexivity.
  - reflexivity.
Defined.

(** ** [Authenticate] and [Validate] over [Config] *)

(** X16: whatever its outcome, [Authenticate] leaves the authenticator
    exactly as its call to [Config] leaves it; and when [Config] fails,
    [Authenticate] returns that error without reading the request, so that
    a request without a token is not answered with "not responsible"
    then. *)
Theorem Authenticate_over_Config E a r session config :
  snd (Authenticate E a r session config) = snd (Config a config) /\
  (forall err,
     fst (Config a config) = Err err ->
     fst (Authenticate E a r session config) = (Some err, session)).
Proof.
  unfold Authenticate.
  destruct (Config a config) as [[cf|e] a1]; cbn [fst snd].
  - split; [|discriminate].
    destruct (String.eqb _ EmptyString); [reflexivity|].
    destruct (introspectionRequest _ _ _) as [introspectReq|e]; [|reflexivity].
    destruct (Do E _ introspectReq) as [resp|e]; [|reflexivity].
    destruct (negb _); [reflexivity|].
    destruct (Decode E _) as [i|e]; [|reflexivity].
    destruct (checkResult _ _ i); reflexivity.
  - split; [reflexivity|]. intros err [= <-]. reflexivity.
Qed.

(** X17: [Validate] returns [nil] exactly when the authenticator is enabled
    and [Config] succeeds; when the authenticator is enabled it leaves the
    authenticator as [Config] does, the stored client replaced when
    pre-authorization is on, and when it is disabled it leaves it
    untouched. *)
Theorem Validate_succeeds_iff a config :
  (fst (Validate a config) = None <->
   configuration.AuthenticatorIsEnabled (Authenticator.c a) (GetID a) = true /\
   exists cf, fst (Config a config) = Ok cf) /\
  snd (Validate a config)
  = if configuration.AuthenticatorIsEnabled (Authenticator.c a) (GetID a)
    then snd (Config a config) else a.
Proof.
  unfold Validate.
  destruct (configuration.AuthenticatorIsEnabled _ _); cbn [negb fst snd].
  - destruct (Config a config) as [[cf|err] a1]; cbn [fst snd].
    + split; [|reflexivity]. split; [intros _; split; [reflexivity|eauto]|reflexivity].
    + split; [|reflexivity]. split; [discriminate|]. intros [_ [cf [=]]].
  - split; [|reflexivity]. split; [discriminate|]. intros [[=] _].
Qed.

(** Validating the sample configuration with pre-authorization replaces
    the client. *)
Example Validate_sample_preauth :
  fst (Validate Sample.authenticator "preauth") = None /\
  Authenticator.client (snd (Validate Sample.authenticator "preauth"))
  <> Authenticator.client Sample.authenticator.
Proof. split; [vm_compute; reflexivity|]. vm_compute. discriminate. Qed.

(** ** The health status *)

(** X18: [UnmarshalBinary] is all or nothing.  When the bytes do not
    decode it returns the decoder's error and leaves the receiver as it
    was; when they do it returns [nil] and the receiver holds the decoded
    value, whatever it held before. *)
Theorem UnmarshalBinary_all_or_nothing codec m b :
  (forall err,
     fst (models.UnmarshalBinary codec m b) = Some err <->
     models.ReadJSON codec b = Err err) /\
  (fst (models.UnmarshalBinary codec m b) <> None ->
   snd (models.UnmarshalBinary codec m b) = m) /\
  (fst (models.UnmarshalBinary codec m b) = None ->
   forall m', models.UnmarshalBinary codec m' b = models.UnmarshalBinary codec m b /\
              models.ReadJSON codec b = Ok (snd (models.UnmarshalBinary codec m b))).
Proof.
  unfold models.UnmarshalBinary.
  destruct (models.ReadJSON codec b) as [res|e]; cbn [fst snd].
  - split; [intros err; split; discriminate|].
    split; [congruence|]. intros _ m'. split; reflexivity.
  - split; [intros err; split; intros [= <-]; reflexivity|].
    split; [reflexivity|discriminate].
Qed.

(** The sample codec: a status with errors marshals and unmarshals over a
    receiver that held none; bytes that do not decode leave it alone. *)
Example UnmarshalBinary_sample :
  models.MarshalBinary Sample2.codec
    (Some {| models.Errors := Some {[ "database" := "down" ]} |})
  = Ok (Some "{errors}") /\
  models.MarshalBinary Sample2.codec None = Ok None /\
  models.UnmarshalBinary Sample2.codec {| models.Errors := None |} "{errors}"
  = (None, {| models.Errors := Some {[ "database" := "down" ]} |}) /\
  models.UnmarshalBinary Sample2.codec
    {| models.Errors := Some {[ "database" := "down" ]} |} "{"
  = (Some (lib_err "invalid character"),
     {| models.Errors := Some {[ "database" := "down" ]} |}).
Proof. repeat split. Qed.

(** ** Scopes, joined and split *)

Lemma strings_Split_spaceless s :
  spaceless s = true -> strings_Split s " "%char = [s].
Proof.
  induction s as [|ch s IH]; [reflexivity|].
  cbn [spaceless strings_Split]. intros [Hch Hs]%andb_true_iff.
  apply negb_true_iff in Hch. rewrite Hch, (IH Hs). reflexivity.
Qed.

Lemma strings_Split_first s rest :
  spaceless s = true ->
  strings_Split (s +:+ " " +:+ rest) " "%char = s :: strings_Split rest " "%char.
Proof.
  induction s as [|ch s IH]; [reflexivity|].
  cbn [spaceless]. intros [Hch Hs]%andb_true_iff.
  apply negb_true_iff in Hch.
  change (String ch s +:+ " " +:+ rest) with (String ch (s +:+ " " +:+ rest)).
  cbn [strings_Split]. rewrite Hch, (IH Hs). reflexivity.
Qed.

(** X19: the [scope] field sent when no strategy is set, split the way the
    scope loop splits a granted scope string, gives back the required
    scopes, provided there is at least one and none contains a space: an
    endpoint that echoes the scopes it was sent grants, to the scope loop,
    exactly the required scopes. *)
Theorem scopes_join_split cf i :
  Configuration.Scopes cf <> [] ->
  Forall (fun scope => spaceless scope = true) (Configuration.Scopes cf) ->
  Result.Scope i = strings_Join (Configuration.Scopes cf) " " ->
  grantedScopes i = Configuration.Scopes cf.
Proof.
  intros Hsome Hspaceless Hscope. unfold grantedScopes. rewrite Hscope.
  clear Hscope. revert Hsome Hspaceless.
  generalize (Configuration.Scopes cf) as scopes.
  induction scopes as [|scope scopes IH]; [congruence|].
  intros _ Hspaceless. apply Forall_cons in Hspaceless as [Hfirst Hrest].
  destruct scopes as [|next scopes].
  - apply strings_Split_spaceless, Hfirst.
  - change (strings_Join (scope :: next :: scopes) " ")
      with (scope +:+ " " +:+ strings_Join (next :: scopes) " ").
    rewrite (strings_Split_first _ _ Hfirst). f_equal.
    apply IH; [discriminate|exact Hrest].
Qed.

Lemma scopes_join_split_witness :
  grantedScopes Sample.active = ["read"; "write"].
Proof.
  apply (scopes_join_split
           {| Configuration.Scopes := ["read"; "write"];
              Configuration.Audience := [];
              Configuration.Issuers := [];
              Configuration.PreAuth := None;
              Configuration.ScopeStrategy := "none";
              Configuration.IntrospectionURL := "https://idp.example/oauth2/introspect";
              Configuration.BearerTokenLocation := None;
              Configuration.IntrospectionRequestHeaders := None;
              Configuration.Retry := None |}
           Sample.active).
  - discriminate.
  - repeat constructor.
  - reflexivity.
Defined.

(** Without the provisos the round trip fails: no scope at all comes back
    as one empty scope, and a scope with a space comes back as two. *)
Example scopes_join_split_edges :
  strings_Split (strings_Join [] " ") " "%char = [EmptyString] /\
  strings_Split (strings_Join ["read write"] " ") " "%char = ["read"; "write"].
Proof. split; reflexivity. Qed.
